(** * finance_tracker: the ledger, its persistence and its queries

    A shallow embedding of [finance_tracker.py]: the [Transaction] record
    with its dictionary form, the [FinanceTracker] store with [load_data],
    [save_data], [add_transaction], [get_transactions],
    [delete_transaction], [get_balance], [get_category_summary] and
    [generate_report], and [main] from the parsed arguments on, followed
    by the properties proved about them.

    Modelling conventions.
    - A Python [str] is a [string]; [str.lower] acts on the ASCII letters.
    - A Python number is a [number]: an [int] carries a [Z], a [float]
      carries the rational it denotes ([nan], the infinities and the
      rounding of float addition are outside the model).
    - The value [json.load] returns is a [json] tree; the text layer of
      [json.dump] / [json.load] is the library's and is not modelled: the
      data file holds the tree that was dumped.
    - [datetime.now()] is an input of the operations that read the clock,
      one reading for each operation; the printing of a day as
      [YYYY-MM-DD] and of a number with two decimals are parameters.
    - An attribute keeps the type its annotation gives.  Where Python would
      return normally with a value of another type in an attribute (a
      numeric category read from the file), the embedding answers
      [Untyped]: nothing is stated about such runs. *)

From Stdlib Require Import ZArith QArith Qabs String Ascii List Bool.
From Stdlib Require Import Permutation Sorted Lia DecimalString.
Import ListNotations.

Set Warnings "-register-all".

Local Open Scope string_scope.
Local Open Scope Z_scope.

(** ** Python strings *)

Module Str.

Definition lower_ascii (c : ascii) : ascii :=
  let n := N_of_ascii c in
  if ((65 <=? n) && (n <=? 90))%N then ascii_of_N (n + 32) else c.

(** [s.lower()] *)
Fixpoint lower (s : string) : string :=
  match s with
  | EmptyString => EmptyString
  | String c s' => String (lower_ascii c) (lower s')
  end.

Definition upper_ascii (c : ascii) : ascii :=
  let n := N_of_ascii c in
  if ((97 <=? n) && (n <=? 122))%N then ascii_of_N (n - 32) else c.

(** [s.upper()] *)
Fixpoint upper (s : string) : string :=
  match s with
  | EmptyString => EmptyString
  | String c s' => String (upper_ascii c) (upper s')
  end.

(** [c * n] for a one-character string *)
Fixpoint times (c : ascii) (n : nat) : string :=
  match n with O => EmptyString | S n' => String c (times c n') end.

(** [f"{s:<w}"] and [f"{s:>w}"]: padding with spaces up to width [w] *)
Definition ljust (w : nat) (s : string) : string :=
  s ++ times " " (w - String.length s).
Definition rjust (w : nat) (s : string) : string :=
  times " " (w - String.length s) ++ s.

(** the line feed *)
Definition nl : string := String (ascii_of_nat 10) EmptyString.

(** truth value of a string: [if s:] *)
Definition truthy (s : string) : bool :=
  match s with EmptyString => false | String _ _ => true end.

(** truth value of an optional string argument whose default is [None] *)
Definition given (o : option string) : bool :=
  match o with None => false | Some s => truthy s end.

(** [a <= b] on strings: lexicographic on the characters *)
Definition le (a b : string) : bool := String.leb a b.

(** [x in l] for a list of strings *)
Definition mem (x : string) (l : list string) : bool :=
  existsb (String.eqb x) l.

(** the characters of [s] as one-character strings: iterating a [str] *)
Fixpoint chars (s : string) : list string :=
  match s with
  | EmptyString => []
  | String c s' => String c EmptyString :: chars s'
  end.

End Str.

(** ** Python numbers *)

Inductive number : Type :=
| PyInt (z : Z)
| PyFloat (q : Q).

Module Num.

(** the rational a number denotes *)
Definition val (n : number) : Q :=
  match n with PyInt z => inject_Z z | PyFloat q => q end.

(** [abs(n)] *)
Definition abs (n : number) : number :=
  match n with
  | PyInt z => PyInt (Z.abs z)
  | PyFloat q => PyFloat (Qabs q)
  end.

(** [a + b]: an [int] only when both are *)
Definition add (a b : number) : number :=
  match a, b with
  | PyInt x, PyInt y => PyInt (x + y)
  | _, _ => PyFloat (val a + val b)
  end.

(** [a - b] *)
Definition sub (a b : number) : number :=
  match a, b with
  | PyInt x, PyInt y => PyInt (x - y)
  | _, _ => PyFloat (val a - val b)
  end.

(** [a <= b] *)
Definition le (a b : number) : bool := Qle_bool (val a) (val b).

(** [sum(l)]: starts from the integer [0] and adds from the left *)
Definition sum (l : list number) : number := fold_left add l (PyInt 0).

End Num.

(** ** JSON values, as [json.load] returns them

    A [JObj] lists the items of a dict in the order of the file; their
    keys are distinct, as the keys of a dict are. *)

Inductive json : Type :=
| JNull
| JBool (b : bool)
| JInt (z : Z)
| JFloat (q : Q)
| JStr (s : string)
| JArr (l : list json)
| JObj (kvs : list (string * json)).

(** ** Exceptions and outcomes *)

Inductive exn : Type :=
| JSONDecodeError (msg : string)
| KeyError (key : string)
| TypeError
| AttributeError
| ValueError (msg : string)
| UnicodeDecodeError (msg : string).

(** What a call does: it returns, it raises, or it returns a value that
    does not fit the annotated types (see the conventions above). *)
Inductive outcome (A : Type) : Type :=
| Returns (a : A)
| Raises (e : exn)
| Untyped.
Arguments Returns {A} a.
Arguments Raises {A} e.
Arguments Untyped {A}.

(** An expression that may raise. *)
Definition ex (A : Type) : Type := (exn + A)%type.

Module Ex.

Definition ret {A} (a : A) : ex A := inr a.
Definition raise {A} (e : exn) : ex A := inl e.
Definition bind {A B} (m : ex A) (k : A -> ex B) : ex B :=
  match m with inl e => inl e | inr a => k a end.

(** [[f(x) for x in l]]: the first exception stops the comprehension *)
Fixpoint mapM {A B} (f : A -> ex B) (l : list A) : ex (list B) :=
  match l with
  | [] => inr []
  | x :: l' =>
      match f x with
      | inl e => inl e
      | inr y => match mapM f l' with
                 | inl e => inl e
                 | inr ys => inr (y :: ys)
                 end
      end
  end.

End Ex.

Notation "x <- m ;; k" := (Ex.bind m (fun x => k))
  (at level 61, m at next level, right associativity).

(** ** Operations of Python on JSON values *)

Module Dyn.

(** [data[k]] with a string key *)
Definition getitem (data : json) (k : string) : ex json :=
  match data with
  | JObj kvs =>
      match find (fun kv => String.eqb (fst kv) k) kvs with
      | Some kv => Ex.ret (snd kv)
      | None => Ex.raise (KeyError k)
      end
  | _ => Ex.raise TypeError
  end.

(** [data.get(k, dflt)]: only a dict has the method *)
Definition get (data : json) (k : string) (dflt : json) : ex json :=
  match data with
  | JObj kvs =>
      match find (fun kv => String.eqb (fst kv) k) kvs with
      | Some kv => Ex.ret (snd kv)
      | None => Ex.ret dflt
      end
  | _ => Ex.raise AttributeError
  end.

(** [data.items()] *)
Definition items (data : json) : ex (list (string * json)) :=
  match data with
  | JObj kvs => Ex.ret kvs
  | _ => Ex.raise AttributeError
  end.

(** [for x in data]: a list gives its items, a dict its keys, a string
    its characters; nothing else can be iterated *)
Definition iter (data : json) : ex (list json) :=
  match data with
  | JArr l => Ex.ret l
  | JObj kvs => Ex.ret (map (fun kv => JStr (fst kv)) kvs)
  | JStr s => Ex.ret (map JStr (Str.chars s))
  | _ => Ex.raise TypeError
  end.

(** the number [abs(v)] works on: a number, or a boolean as the integer
    1 or 0; [abs] raises on anything else *)
Definition abs_arg (v : json) : ex number :=
  match v with
  | JInt z => Ex.ret (PyInt z)
  | JFloat q => Ex.ret (PyFloat q)
  | JBool b => Ex.ret (PyInt (if b then 1 else 0))
  | _ => Ex.raise TypeError
  end.

(** the string [v.lower()] works on: only a string has the method *)
Definition lower_arg (v : json) : ex string :=
  match v with
  | JStr s => Ex.ret s
  | _ => Ex.raise AttributeError
  end.

(** truth value of a JSON value *)
Definition truthy (v : json) : bool :=
  match v with
  | JNull => false
  | JBool b => b
  | JInt z => negb (z =? 0)
  | JFloat q => negb (Qeq_bool q 0)
  | JStr s => Str.truthy s
  | JArr l => match l with [] => false | _ => true end
  | JObj kvs => match kvs with [] => false | _ => true end
  end.

(** [hash(v)] raises for lists and dicts *)
Definition hashable (v : json) : bool :=
  match v with JArr _ | JObj _ => false | _ => true end.

(** the value as a [str] attribute, when it is one *)
Definition as_str (v : json) : option string :=
  match v with JStr s => Some s | _ => None end.

(** the value as an [int] attribute, when it is one *)
Definition as_int (v : json) : option Z :=
  match v with JInt z => Some z | _ => None end.

(** the value as the [date] argument of [Transaction]: a string, or a
    false value, which [date or ...] replaces as it does [None] *)
Definition as_date (v : json) : option (option string) :=
  match v with
  | JStr s => Some (Some s)
  | _ => if truthy v then None else Some None
  end.

End Dyn.

(** ** The clock *)

(** A reading of [datetime.now()]: the calendar day as a day number and
    the value of [.timestamp()], in seconds. *)
Record datetime : Type := { day : Z; timestamp : Q }.

(** [int(x)]: truncation toward zero *)
Definition int_of (x : Q) : Z := Z.quot (Qnum x) (Zpos (Qden x)).

(** ** class Transaction *)

Module Transaction.

Record t : Type := mk {
  id : Z;
  amount : number;
  category : string;
  description : string;
  transaction_type : string;
  date : string
}.

Definition set_id (x : t) (i : Z) : t :=
  mk i (amount x) (category x) (description x) (transaction_type x) (date x).

(** [int(datetime.now().timestamp() * 1000000) % 1000000] *)
Definition _generate_id (now : datetime) : Z :=
  (int_of (timestamp now * 1000000)) mod 1000000.

Section Clock.

(** [d.strftime("%Y-%m-%d")] of the day with the given number *)
Variable strftime_ymd : Z -> string.

(** [date or datetime.now().strftime("%Y-%m-%d")] *)
Definition date_or_today (now : datetime) (date : option string) : string :=
  match date with
  | Some d => if Str.truthy d then d else strftime_ymd (day now)
  | None => strftime_ymd (day now)
  end.

Definition __init__ (now : datetime) (amount : number)
    (category description transaction_type : string)
    (date : option string) : t :=
  {| id := _generate_id now;
     amount := Num.abs amount;
     category := category;
     description := description;
     transaction_type := Str.lower transaction_type;
     date := date_or_today now date |}.

Definition to_dict (x : t) : json :=
  JObj [ ("id", JInt (id x));
         ("amount", match amount x with
                    | PyInt z => JInt z
                    | PyFloat q => JFloat q
                    end);
         ("category", JStr (category x));
         ("description", JStr (description x));
         ("type", JStr (transaction_type x));
         ("date", JStr (date x)) ].

(** [from_dict]: the five lookups in the order of the keyword
    arguments, then the constructor (where [abs] and then [.lower()]
    may raise), then the lookup of ['id'].  The result is [None] when no
    exception is raised and an attribute gets a value outside its
    annotated type. *)
Definition from_dict (now : datetime) (data : json) : ex (option t) :=
  v_amount <- Dyn.getitem data "amount" ;;
  v_category <- Dyn.getitem data "category" ;;
  v_description <- Dyn.getitem data "description" ;;
  v_type <- Dyn.getitem data "type" ;;
  v_date <- Dyn.getitem data "date" ;;
  a <- Dyn.abs_arg v_amount ;;
  ty <- Dyn.lower_arg v_type ;;
  v_id <- Dyn.getitem data "id" ;;
  Ex.ret
    match Dyn.as_str v_category, Dyn.as_str v_description,
          Dyn.as_date v_date, Dyn.as_int v_id with
    | Some c, Some d, Some dt, Some i =>
        Some (set_id (__init__ now a c d ty dt) i)
    | _, _, _, _ => None
    end.

End Clock.

End Transaction.

(** ** [sorted(l, key=..., reverse=True)] *)

Section Sorted.

Context {A K : Type}.
Variable le : K -> K -> bool.
Variable key : A -> K.

(** [x] goes before the first element whose key is not above its own,
    so elements with equal keys keep their order (the sort is stable) *)
Fixpoint insert_desc (x : A) (l : list A) : list A :=
  match l with
  | [] => [x]
  | y :: l' =>
      if le (key y) (key x) then x :: y :: l'
      else y :: insert_desc x l'
  end.

Definition sorted_reverse (l : list A) : list A :=
  fold_right insert_desc [] l.

(** descending by key: each element's key is at least the next one's *)
Definition descending (l : list A) : Prop :=
  Sorted (fun a b => le (key b) (key a) = true) l.

End Sorted.

(** ** The data file *)

Inductive file_state : Type :=
| Absent                      (* [os.path.exists] is false *)
| Undecodable (msg : string)  (* reading the file inside [json.load] raises
                                 [UnicodeDecodeError]: bytes that are not
                                 text in the encoding of the locale *)
| Unparsable (msg : string)   (* [json.load] raises [JSONDecodeError(msg)] *)
| Content (data : json).      (* [json.load] returns [data] *)

(** ** class FinanceTracker *)

Module FinanceTracker.

(** [self.categories]: a dict with the two keys ['income'], ['expense'] *)
Record Categories : Type := {
  income : list string;
  expense : list string
}.

Record t : Type := mk {
  data_file : string;
  transactions : list Transaction.t;
  categories : Categories
}.

Definition default_categories : Categories :=
  {| income := ["Salary"; "Freelance"; "Investment"; "Gift"; "Other Income"];
     expense := ["Food"; "Transportation"; "Entertainment"; "Bills";
                 "Shopping"; "Healthcare"; "Education"; "Travel";
                 "Other Expense"] |}.

(** [k in self.categories] *)
Definition has_key (k : string) : bool :=
  String.eqb k "income" || String.eqb k "expense".

(** [self.categories[k]] *)
Definition getitem (c : Categories) (k : string) : ex (list string) :=
  if String.eqb k "income" then Ex.ret (income c)
  else if String.eqb k "expense" then Ex.ret (expense c)
  else Ex.raise (KeyError k).

(** [self.categories[k] = v], for a key of the dict *)
Definition setitem (c : Categories) (k : string) (v : list string)
  : Categories :=
  if String.eqb k "income" then {| income := v; expense := expense c |}
  else if String.eqb k "expense" then {| income := income c; expense := v |}
  else c.

(** the vocabulary of a kind, empty for a string that is not a key *)
Definition vocabulary (c : Categories) (k : string) : list string :=
  match getitem c k with inr l => l | inl _ => [] end.

Definition set_transactions (self : t) (l : list Transaction.t) : t :=
  mk (data_file self) l (categories self).

Definition set_categories (self : t) (c : Categories) : t :=
  mk (data_file self) (transactions self) c.

(** the strings of a list of JSON values, when all of them are strings *)
Fixpoint all_str (l : list json) : option (list string) :=
  match l with
  | [] => Some []
  | v :: l' =>
      match Dyn.as_str v, all_str l' with
      | Some s, Some ss => Some (s :: ss)
      | _, _ => None
      end
  end.

(** the values of a list, when none of them is [None] *)
Fixpoint all_some {A} (l : list (option A)) : option (list A) :=
  match l with
  | [] => Some []
  | o :: l' =>
      match o, all_some l' with
      | Some a, Some l'' => Some (a :: l'')
      | _, _ => None
      end
  end.

(** [save_data]: the file afterwards holds the tree that [json.dump]
    writes *)
Definition save_data (self : t) : file_state :=
  Content
    (JObj [ ("transactions",
             JArr (map Transaction.to_dict (transactions self)));
            ("categories",
             JObj [ ("income", JArr (map JStr (income (categories self))));
                    ("expense", JArr (map JStr (expense (categories self)))) ]) ]).

Section Store.

(** [d.strftime("%Y-%m-%d")] of the day with the given number *)
Variable strftime_ymd : Z -> string.

(** [list(set(l))]: the elements of [l], each once, in the order the
    interpreter's hashing gives *)
Variable list_set : list string -> list string.

(** One turn of the loop over [file_categories.items()].  The store is
    [None] once an attribute holds a value outside its type; the
    exceptions of the turn do not depend on it. *)
Definition merge_step (self : option t) (kv : string * json)
  : ex (option t) :=
  let (cat_type, cats) := kv in
  if has_key cat_type then
    match cats with
    | JArr l =>                       (* list + list *)
        if forallb Dyn.hashable l then
          Ex.ret
            match self, all_str l with
            | Some s, Some strs =>
                match getitem (categories s) cat_type with
                | inr cur =>
                    Some (set_categories s
                            (setitem (categories s) cat_type
                               (list_set (cur ++ strs))))
                | inl _ => None
                end
            | _, _ => None
            end
        else Ex.raise TypeError       (* set() of an unhashable item *)
    | _ => Ex.raise TypeError         (* list + something else *)
    end
  else Ex.ret self.

(** the loop: the exception that stops it, if any, and [self] then *)
Fixpoint merge_loop (self : option t) (kvs : list (string * json))
  : option exn * option t :=
  match kvs with
  | [] => (None, self)
  | kv :: rest =>
      match merge_step self kv with
      | inl e => (Some e, self)
      | inr self' => merge_loop self' rest
      end
  end.

(** the body of the [try]: the exception that leaves it, if any, and
    [self] at that point *)
Definition load_try (now : datetime) (self : t) (data : json)
  : option exn * option t :=
  match Dyn.get data "transactions" (JArr []) with
  | inl e => (Some e, Some self)
  | inr v_transactions =>
  match Dyn.iter v_transactions with
  | inl e => (Some e, Some self)
  | inr items =>
  match Ex.mapM (Transaction.from_dict strftime_ymd now) items with
  | inl e => (Some e, Some self)
  | inr ts =>
      let self1 := option_map (set_transactions self) (all_some ts) in
      match Dyn.get data "categories" (JObj []) with
      | inl e => (Some e, self1)
      | inr file_categories =>
      match Dyn.items file_categories with
      | inl e => (Some e, self1)
      | inr kvs => merge_loop self1 kvs
      end end
  end end end.

(** [str(e)] for the two exceptions that [load_data] reports *)
Definition str_exn (e : exn) : string :=
  match e with
  | JSONDecodeError msg => msg
  | KeyError k => "'" ++ k ++ "'"
  | _ => ""
  end.

Definition load_message (e : exn) : string :=
  "Error loading data: " ++ str_exn e ++ ". Starting with empty data.".

(** [except (json.JSONDecodeError, KeyError)] *)
Definition caught (e : exn) : bool :=
  match e with
  | JSONDecodeError _ | KeyError _ => true
  | _ => false
  end.

(** [load_data]: the store after the call and the lines printed *)
Definition load_data (now : datetime) (self : t) (file : file_state)
  : outcome (t * list string) :=
  match file with
  | Absent => Returns (self, [])
  | Undecodable msg => Raises (UnicodeDecodeError msg)
  | Unparsable msg =>
      Returns (self, [load_message (JSONDecodeError msg)])
  | Content data =>
      match load_try now self data with
      | (Some e, self') =>
          if caught e then
            match self' with
            | Some s => Returns (s, [load_message e])
            | None => Untyped
            end
          else Raises e
      | (None, Some s) => Returns (s, [])
      | (None, None) => Untyped
      end
  end.

(** [FinanceTracker(data_file)] *)
Definition __init__ (now : datetime) (data_file : string)
    (file : file_state) : outcome (t * list string) :=
  load_data now
    {| data_file := data_file;
       transactions := [];
       categories := default_categories |}
    file.

End Store.

(** *** Mutations *)

Section Mutations.

Variable strftime_ymd : Z -> string.

(** [add_transaction]: what the call returns or raises, the store and
    the data file afterwards *)
Definition add_transaction (now : datetime) (self : t) (file : file_state)
    (amount : number) (category description transaction_type : string)
    (date : option string) : ex Transaction.t * t * file_state :=
  let kind := Str.lower transaction_type in
  if negb (Str.mem kind ["income"; "expense"]) then
    (Ex.raise (ValueError "Transaction type must be 'income' or 'expense'"),
     self, file)
  else
    match getitem (categories self) kind with
    | inl e => (Ex.raise e, self, file)
    | inr cur =>
        let self1 :=
          if negb (Str.mem category cur) then
            set_categories self
              (setitem (categories self) kind (cur ++ [category]))
          else self in
        let transaction :=
          Transaction.__init__ strftime_ymd now amount category
            description transaction_type date in
        let self2 :=
          set_transactions self1 (transactions self1 ++ [transaction]) in
        (Ex.ret transaction, self2, save_data self2)
    end.

End Mutations.

(** [delete_transaction]: the boolean returned, the store and the data
    file afterwards *)
Definition delete_transaction (self : t) (file : file_state)
    (transaction_id : Z) : bool * t * file_state :=
  let original_length := length (transactions self) in
  let self1 :=
    set_transactions self
      (filter (fun x => negb (Transaction.id x =? transaction_id))
         (transactions self)) in
  if (length (transactions self1) <? original_length)%nat then
    (true, self1, save_data self1)
  else (false, self1, file).

(** *** Queries *)

(** [[t for t in l if p(t)]] under [if arg:] *)
Definition keep_if (arg : option string)
    (p : string -> Transaction.t -> bool) (l : list Transaction.t)
  : list Transaction.t :=
  match arg with
  | Some a => if Str.truthy a then filter (p a) l else l
  | None => l
  end.

(** [get_transactions]: the list returned, and the store afterwards *)
Definition get_transactions (self : t)
    (start_date end_date category transaction_type : option string)
  : list Transaction.t * t :=
  let filtered := transactions self in
  let filtered :=
    keep_if start_date
      (fun a x => Str.le a (Transaction.date x)) filtered in
  let filtered :=
    keep_if end_date
      (fun a x => Str.le (Transaction.date x) a) filtered in
  let filtered :=
    keep_if category
      (fun a x => String.eqb (Str.lower (Transaction.category x))
                             (Str.lower a)) filtered in
  let filtered :=
    keep_if transaction_type
      (fun a x => String.eqb (Transaction.transaction_type x)
                             (Str.lower a)) filtered in
  (sorted_reverse Str.le Transaction.date filtered, self).

Record Balance : Type := {
  b_income : number;
  b_expenses : number;
  b_balance : number
}.

(** [sum(t.amount for t in l if t.transaction_type == kind)] *)
Definition total (kind : string) (l : list Transaction.t) : number :=
  Num.sum
    (map Transaction.amount
       (filter (fun x => String.eqb (Transaction.transaction_type x) kind) l)).

Definition get_balance (self : t) (start_date end_date : option string)
  : Balance :=
  let transactions := fst (get_transactions self start_date end_date None None) in
  let total_income := total "income" transactions in
  let total_expenses := total "expense" transactions in
  {| b_income := total_income;
     b_expenses := total_expenses;
     b_balance := Num.sub total_income total_expenses |}.

(** a dict from category to amount, in insertion order *)
Definition amounts : Type := list (string * number).

(** [if c not in d: d[c] = 0] and then [d[c] += a] *)
Fixpoint accumulate (d : amounts) (c : string) (a : number) : amounts :=
  match d with
  | [] => [(c, Num.add (PyInt 0) a)]
  | (c', v) :: d' =>
      if String.eqb c' c then (c', Num.add v a) :: d'
      else (c', v) :: accumulate d' c a
  end.

(** [summary]: a dict with the two keys ['income'], ['expense'] *)
Record Summary : Type := {
  s_income : amounts;
  s_expense : amounts
}.

(** one turn of the loop of [get_category_summary]; [summary[cat_type]]
    raises for a type that is neither key *)
Definition summary_step (summary : Summary) (x : Transaction.t)
  : ex Summary :=
  let cat_type := Transaction.transaction_type x in
  let category := Transaction.category x in
  if String.eqb cat_type "income" then
    Ex.ret {| s_income := accumulate (s_income summary) category
                            (Transaction.amount x);
              s_expense := s_expense summary |}
  else if String.eqb cat_type "expense" then
    Ex.ret {| s_income := s_income summary;
              s_expense := accumulate (s_expense summary) category
                             (Transaction.amount x) |}
  else Ex.raise (KeyError cat_type).

Fixpoint summary_loop (summary : Summary) (l : list Transaction.t)
  : ex Summary :=
  match l with
  | [] => Ex.ret summary
  | x :: l' =>
      summary' <- summary_step summary x ;;
      summary_loop summary' l'
  end.

Definition get_category_summary (self : t)
    (start_date end_date : option string) : ex Summary :=
  let transactions := fst (get_transactions self start_date end_date None None) in
  summary_loop {| s_income := []; s_expense := [] |} transactions.

(** *** The report *)

Section Report.

Variable strftime_ymd : Z -> string.

(** [f"{x:.2f}"]: a number with two decimals *)
Variable fixed2 : number -> string.

(** the lower bound on the dates of a period:
    [(datetime.now() - timedelta(days=n)).strftime("%Y-%m-%d")], the day
    [n] days before today *)
Definition period_start (now : datetime) (period : string)
  : option string :=
  if String.eqb period "week" then Some (strftime_ymd (day now - 7))
  else if String.eqb period "month" then Some (strftime_ymd (day now - 30))
  else if String.eqb period "year" then Some (strftime_ymd (day now - 365))
  else None.

(** [sorted(d.items(), key=lambda x: x[1], reverse=True)] *)
Definition sorted_items (d : amounts) : list (string * number) :=
  sorted_reverse Num.le snd d.

(** a line of a category block *)
Definition row (item : string * number) : string :=
  "  " ++ Str.ljust 20 (fst item) ++ " $"
       ++ Str.rjust 8 (fixed2 (snd item)) ++ Str.nl.

(** a category block: nothing for an empty dict, else the title, a
    line per item of [rows] and the closing text *)
Definition block (title : string) (d : amounts)
    (rows : list (string * number)) (closing : string) : string :=
  match d with
  | [] => ""
  | _ :: _ => title ++ Str.nl ++ String.concat "" (map row rows) ++ closing
  end.

Definition heading (period : string) (balance : Balance) : string :=
  Str.nl ++ Str.times "=" 50 ++ Str.nl
  ++ "FINANCIAL REPORT - " ++ Str.upper period ++ Str.nl
  ++ Str.times "=" 50 ++ Str.nl ++ Str.nl
  ++ "SUMMARY:" ++ Str.nl
  ++ "Total Income:    $" ++ Str.rjust 10 (fixed2 (b_income balance)) ++ Str.nl
  ++ "Total Expenses:  $" ++ Str.rjust 10 (fixed2 (b_expenses balance)) ++ Str.nl
  ++ "Net Balance:     $" ++ Str.rjust 10 (fixed2 (b_balance balance)) ++ Str.nl
  ++ Str.nl.

Definition generate_report (now : datetime) (self : t) (period : string)
  : ex string :=
  let start_date := period_start now period in
  let balance := get_balance self start_date None in
  category_summary <- get_category_summary self start_date None ;;
  let report := heading period balance in
  let report :=
    report ++ block "INCOME BY CATEGORY:" (s_income category_summary)
                (sorted_items (s_income category_summary)) Str.nl in
  let report :=
    report ++ block "EXPENSES BY CATEGORY:" (s_expense category_summary)
                (sorted_items (s_expense category_summary)) "" in
  Ex.ret report.

End Report.

End FinanceTracker.

(** ** The command line: [main] *)

Module Cli.

(** [args.command], with the arguments its sub-parser collects; [None]
    stands for an option that was not given.  The amount of [add] is a
    float and the limit of [list] an int (10 unless given). *)
Inductive command : Type :=
| Add (amount : Q) (type category description : string) (date : option string)
| List (start end_ category type : option string) (limit : Z)
| Delete (id : Z)
| Balance (start end_ : option string)
| Report (period : string)
| Categories.

(** the namespace [parse_args] returns *)
Record args : Type := {
  file : string;
  command_ : option command
}.

(** [str(n)] for an int *)
Definition str_int (n : Z) : string := NilZero.string_of_int (Z.to_int n).

(** [l[:n]]: the first [n] items, or all but the last [-n] when [n] is
    negative *)
Definition slice_to {A : Type} (n : Z) (l : list A) : list A :=
  if 0 <=? n then firstn (Z.to_nat n) l
  else firstn (length l - Z.to_nat (- n)) l.

Section Main.

Variable strftime_ymd : Z -> string.
Variable list_set : list string -> list string.

(** [f"{x:.2f}"]: a number with two decimals *)
Variable fixed2 : number -> string.

(** [repr(s)] of a string *)
Variable repr_str : string -> string.

(** [str(e)] for the exceptions that built-in operations raise *)
Variable builtin_text : exn -> string.

(** what [parser.print_help()] prints *)
Variable help : list string.

(** [str(e)] *)
Definition str_exn (e : exn) : string :=
  match e with
  | ValueError msg => msg
  | KeyError k => repr_str k
  | JSONDecodeError msg => msg
  | _ => builtin_text e
  end.

(** the [except Exception] clause of [main] *)
Definition error_line (e : exn) : string := "Error: " ++ str_exn e.

Definition added_line (type : string) (amount : Q) (description : string)
    (transaction : Transaction.t) : string :=
  "Added " ++ type ++ ": $" ++ fixed2 (PyFloat amount) ++ " - "
  ++ description ++ " (ID: " ++ str_int (Transaction.id transaction) ++ ")".

Definition list_header : string :=
  Str.nl ++ Str.ljust 8 "ID" ++ " " ++ Str.ljust 12 "Date" ++ " "
  ++ Str.ljust 8 "Type" ++ " " ++ Str.ljust 15 "Category" ++ " "
  ++ Str.ljust 10 "Amount" ++ " Description".

Definition list_row (transaction : Transaction.t) : string :=
  let sign :=
    if String.eqb (Transaction.transaction_type transaction) "income"
    then "+" else "-" in
  Str.ljust 8 (str_int (Transaction.id transaction)) ++ " "
  ++ Str.ljust 12 (Transaction.date transaction) ++ " "
  ++ Str.ljust 8 (Transaction.transaction_type transaction) ++ " "
  ++ Str.ljust 15 (Transaction.category transaction) ++ " "
  ++ sign ++ "$" ++ Str.ljust 9 (fixed2 (Transaction.amount transaction))
  ++ " " ++ Transaction.description transaction.

(** the [try] of [main] with its [except]: the lines printed and the data
    file afterwards *)
Definition run (now : datetime) (c : command) (tracker : FinanceTracker.t)
    (disk : file_state) : list string * file_state :=
  match c with
  | Add amount type category description date =>
      match FinanceTracker.add_transaction strftime_ymd now tracker disk
              (PyFloat amount) category description type date with
      | (inr transaction, _, disk') =>
          ([added_line type amount description transaction], disk')
      | (inl e, _, disk') => ([error_line e], disk')
      end
  | List start end_ category type limit =>
      let transactions :=
        fst (FinanceTracker.get_transactions tracker start end_ category
               type) in
      match transactions with
      | [] => (["No transactions found."], disk)
      | _ :: _ =>
          (list_header :: Str.times "-" 70
             :: map list_row (slice_to limit transactions),
           disk)
      end
  | Delete id =>
      match FinanceTracker.delete_transaction tracker disk id with
      | (true, _, disk') =>
          (["Transaction " ++ str_int id ++ " deleted successfully."], disk')
      | (false, _, disk') =>
          (["Transaction " ++ str_int id ++ " not found."], disk')
      end
  | Balance start end_ =>
      let balance := FinanceTracker.get_balance tracker start end_ in
      ([ Str.nl ++ "FINANCIAL SUMMARY";
         Str.times "-" 20;
         "Total Income:   $"
         ++ Str.rjust 10 (fixed2 (FinanceTracker.b_income balance));
         "Total Expenses: $"
         ++ Str.rjust 10 (fixed2 (FinanceTracker.b_expenses balance));
         "Net Balance:    $"
         ++ Str.rjust 10 (fixed2 (FinanceTracker.b_balance balance)) ],
       disk)
  | Report period =>
      match FinanceTracker.generate_report strftime_ymd fixed2 now tracker
              period with
      | inr report => ([report], disk)
      | inl e => ([error_line e], disk)
      end
  | Categories =>
      let item := fun cat : string => "  - " ++ cat in
      let income_lines :=
        map item (FinanceTracker.income (FinanceTracker.categories tracker)) in
      let expense_lines :=
        map item (FinanceTracker.expense (FinanceTracker.categories tracker)) in
      (List.app
         ((Str.nl ++ "AVAILABLE CATEGORIES:")
          :: (Str.nl ++ "Income Categories:") :: income_lines)
         ((Str.nl ++ "Expense Categories:") :: expense_lines),
       disk)
  end.

(** [main], from the namespace of the arguments on: the lines printed and
    the data file afterwards, or the exception that ends the program.  The
    store is constructed outside the [try]. *)
Definition main (now : datetime) (a : args) (disk : file_state)
  : outcome (list string * file_state) :=
  match command_ a with
  | None => Returns (help, disk)
  | Some c =>
      match FinanceTracker.__init__ strftime_ymd list_set now (file a) disk
      with
      | Returns (tracker, loaded) =>
          let (printed, disk') := run now c tracker disk in
          Returns ((loaded ++ printed)%list, disk')
      | Raises e => Raises e
      | Untyped => Untyped
      end
  end.

End Main.

End Cli.

(** ** The specification's reading of some operations *)

Module Spec.

(** "removes the first entry with matching id": the entries after it
    stay, whatever their id *)
Fixpoint remove_first (transaction_id : Z) (l : list Transaction.t)
  : list Transaction.t :=
  match l with
  | [] => []
  | x :: l' =>
      if Transaction.id x =? transaction_id then l'
      else x :: remove_first transaction_id l'
  end.

(** "keeps entries whose date >= start (if given), date <= end (if
    given), category case-insensitively equal (if given), kind equal (if
    given)", an argument being given when it is not [None] *)
Definition when_given (arg : option string) (p : string -> bool) : bool :=
  match arg with Some a => p a | None => true end.

Definition keeps (start_date end_date category kind : option string)
    (x : Transaction.t) : bool :=
  when_given start_date (fun a => Str.le a (Transaction.date x))
  && when_given end_date (fun a => Str.le (Transaction.date x) a)
  && when_given category
       (fun a => String.eqb (Str.lower (Transaction.category x)) (Str.lower a))
  && when_given kind
       (fun a => String.eqb (Transaction.transaction_type x) (Str.lower a)).

(** the same, an argument being given when it is neither [None] nor the
    empty string *)
Definition when_nonempty (arg : option string) (p : string -> bool)
  : bool :=
  match arg with
  | Some a => if Str.truthy a then p a else true
  | None => true
  end.

Definition keeps_nonempty (start_date end_date category kind : option string)
    (x : Transaction.t) : bool :=
  when_nonempty start_date (fun a => Str.le a (Transaction.date x))
  && when_nonempty end_date (fun a => Str.le (Transaction.date x) a)
  && when_nonempty category
       (fun a => String.eqb (Str.lower (Transaction.category x)) (Str.lower a))
  && when_nonempty kind
       (fun a => String.eqb (Transaction.transaction_type x) (Str.lower a)).

End Spec.

(** ** Invariants *)

(** every category of the first vocabularies is in the second ones *)
Definition grows (c c' : FinanceTracker.Categories) : Prop :=
  forall k x,
    In x (FinanceTracker.vocabulary c k) -> In x (FinanceTracker.vocabulary c' k).

(** what the constructor of [Transaction] makes of its arguments: the
    amount is an absolute value, the type is in lower case, the date is
    not empty *)
Definition entry_ok (x : Transaction.t) : Prop :=
  Num.abs (Transaction.amount x) = Transaction.amount x
  /\ Str.lower (Transaction.transaction_type x) = Transaction.transaction_type x
  /\ Transaction.date x <> "".

Definition store_ok (self : FinanceTracker.t) : Prop :=
  Forall entry_ok (FinanceTracker.transactions self).

(** the exceptions that reading a data file can raise *)
Definition load_exn (e : exn) : Prop :=
  e = TypeError \/ e = AttributeError \/ exists k, e = KeyError k.

(** ** Sample values, on which the operations are run *)

Module Sample.

Definition strftime_ymd (d : Z) : string :=
  if d =? 19783 then "2024-03-01" else "2024-02-23".

Definition list_set (l : list string) : list string := nodup string_dec l.

Definition fixed2 (n : number) : string :=
  match n with
  | PyFloat (Qmake 50 1) => "50.00"
  | PyFloat (Qmake 200 1) => "200.00"
  | _ => "0.00"
  end.

Definition now : datetime :=
  {| day := 19783; timestamp := 1709280000.123456 |}.

Definition food : Transaction.t :=
  Transaction.mk 1 (PyFloat 50) "Food" "Groceries" "expense" "2024-02-15".
Definition bills : Transaction.t :=
  Transaction.mk 2 (PyFloat 200) "Bills" "Rent" "expense" "2024-01-31".
Definition salary : Transaction.t :=
  Transaction.mk 1 (PyInt 1000) "Salary" "Monthly salary" "income" "2024-02-20".

Definition store (l : list Transaction.t) : FinanceTracker.t :=
  FinanceTracker.mk "finance_data.json" l FinanceTracker.default_categories.

(** two entries carry the id 1 *)
Definition ledger : FinanceTracker.t := store [food; bills; salary].

End Sample.

(** ** Notions used in the statements *)

(** the entries of a store that a pair of dates keeps *)
Definition in_range (start_date end_date : option string)
    (l : list Transaction.t) : list Transaction.t :=
  filter (Spec.keeps_nonempty start_date end_date None None) l.

(** the entries of a kind and a category, in the order of the list *)
Definition of_category (kind category : string) (l : list Transaction.t)
  : list Transaction.t :=
  filter (fun x => String.eqb (Transaction.transaction_type x) kind
                   && String.eqb (Transaction.category x) category) l.

(** [d.get(c)]: the amount a mapping holds for a category, if any *)
Definition lookup (d : FinanceTracker.amounts) (c : string) : option number :=
  option_map snd (find (fun kv => String.eqb (fst kv) c) d).

(** [summary[kind]], for the two keys of a summary *)
Definition summary_of (summary : FinanceTracker.Summary) (kind : string)
  : FinanceTracker.amounts :=
  if String.eqb kind "income" then FinanceTracker.s_income summary
  else FinanceTracker.s_expense summary.

(** what [from_dict] makes of the record [to_dict] wrote for an entry: the
    constructor runs again on its attributes, and the id is put back *)
Definition reread (strftime_ymd : Z -> string) (now : datetime)
    (x : Transaction.t) : Transaction.t :=
  Transaction.set_id
    (Transaction.__init__ strftime_ymd now (Transaction.amount x)
       (Transaction.category x) (Transaction.description x)
       (Transaction.transaction_type x) (Some (Transaction.date x)))
    (Transaction.id x).

(** the keys [from_dict] looks up *)
Definition record_keys : list string :=
  ["amount"; "category"; "description"; "type"; "date"; "id"].

(** ** Sample values for the command line *)

Module SampleCli.

Definition repr_str (s : string) : string := "'" ++ s ++ "'".

Definition builtin_text (e : exn) : string := "".

Definition help : list string := ["usage: finance_tracker.py [-h] ..."].

Definition main :=
  Cli.main Sample.strftime_ymd Sample.list_set Sample.fixed2 repr_str
    builtin_text help Sample.now.

Definition args (c : Cli.command) : Cli.args :=
  {| Cli.file := "finance_data.json"; Cli.command_ := Some c |}.

End SampleCli.

(** ** A rendering of numbers with two decimals *)

Module Format.

Definition two_digits (n : Z) : string :=
  if n <? 10 then "0" ++ Cli.str_int n else Cli.str_int n.

(** [f"{x:.2f}"] on the exact value of a number: the nearest hundredth,
    a tie going to the even one *)
Definition fixed2 (n : number) : string :=
  let q := Num.val n in
  let den := Zpos (Qden q) in
  let a := Z.abs (Qnum q) * 100 in
  let fl := a / den in
  let r := a mod den in
  let cents :=
    if 2 * r <? den then fl
    else if den <? 2 * r then fl + 1
    else if Z.even fl then fl else fl + 1 in
  (if Qnum q <? 0 then "-" else "")
  ++ Cli.str_int (cents / 100) ++ "." ++ two_digits (cents mod 100).

End Format.

(** * Properties *)

(** ** Strings and numbers *)

Lemma lower_ascii_idem (c : ascii) :
  Str.lower_ascii (Str.lower_ascii c) = Str.lower_ascii c.
Proof. destruct c as [[] [] [] [] [] [] [] []]; reflexivity. Qed.

Lemma lower_idem (s : string) : Str.lower (Str.lower s) = Str.lower s.
Proof.
  induction s as [|c s IH]; simpl; [reflexivity|].
  now rewrite lower_ascii_idem, IH.
Qed.

Lemma mem_In (x : string) (l : list string) :
  Str.mem x l = true <-> In x l.
Proof.
  unfold Str.mem. rewrite existsb_exists. split.
  - intros [y [Hy Heq]]. apply String.eqb_eq in Heq. now subst.
  - intros H. exists x. split; [assumption|apply String.eqb_refl].
Qed.

Lemma mem_false (x : string) (l : list string) :
  Str.mem x l = false <-> ~ In x l.
Proof.
  rewrite <- mem_In. destruct (Str.mem x l); split; congruence.
Qed.

Lemma truthy_nonempty (s : string) : Str.truthy s = true <-> s <> "".
Proof. destruct s; simpl; split; congruence. Qed.

Lemma abs_idem (n : number) : Num.abs (Num.abs n) = Num.abs n.
Proof.
  destruct n as [z|[n d]]; simpl.
  - now rewrite Z.abs_idemp.
  - unfold Qabs. now rewrite Z.abs_idemp.
Qed.

Lemma num_le_total (a b : number) : Num.le a b = true \/ Num.le b a = true.
Proof.
  unfold Num.le. rewrite !Qle_bool_iff.
  destruct (Qlt_le_dec (Num.val b) (Num.val a)) as [H|H].
  - right. now apply Qlt_le_weak.
  - now left.
Qed.

(** ** [sorted(..., reverse=True)] rearranges its argument and puts it in
    descending order of the key *)

Section SortedProperties.

Context {A K : Type}.
Variable le : K -> K -> bool.
Variable key : A -> K.
Hypothesis le_total : forall a b, le a b = true \/ le b a = true.

Lemma insert_desc_perm (x : A) (l : list A) :
  Permutation (x :: l) (insert_desc le key x l).
Proof.
  induction l as [|y l IH]; simpl; [reflexivity|].
  destruct (le (key y) (key x)); [reflexivity|].
  rewrite perm_swap. now constructor.
Qed.

Lemma sorted_reverse_perm (l : list A) :
  Permutation l (sorted_reverse le key l).
Proof.
  induction l as [|x l IH]; simpl; [constructor|].
  rewrite <- insert_desc_perm. now constructor.
Qed.

Lemma insert_desc_hd (x y : A) (l : list A) :
  le (key x) (key y) = true ->
  HdRel (fun a b => le (key b) (key a) = true) y l ->
  HdRel (fun a b => le (key b) (key a) = true) y (insert_desc le key x l).
Proof.
  intros Hxy Hl. destruct l as [|z l]; simpl.
  - now constructor.
  - destruct (le (key z) (key x)); constructor; [assumption|].
    now inversion Hl.
Qed.

Lemma insert_desc_sorted (x : A) (l : list A) :
  descending le key l -> descending le key (insert_desc le key x l).
Proof.
  unfold descending.
  induction l as [|y l IH]; intros Hs; simpl.
  - repeat constructor.
  - destruct (le (key y) (key x)) eqn:Hyx.
    + constructor; [assumption|now constructor].
    + inversion Hs as [|? ? Hs' Hhd]; subst.
      constructor; [now apply IH|].
      apply insert_desc_hd; [|assumption].
      destruct (le_total (key x) (key y)); congruence.
Qed.

Lemma sorted_reverse_descending (l : list A) :
  descending le key (sorted_reverse le key l).
Proof.
  induction l as [|x l IH]; simpl.
  - constructor.
  - now apply insert_desc_sorted.
Qed.

Lemma sorted_reverse_In (l : list A) (x : A) :
  In x (sorted_reverse le key l) <-> In x l.
Proof.
  split; apply Permutation_in;
    [symmetry|]; apply sorted_reverse_perm.
Qed.

End SortedProperties.

(** ** The category vocabularies *)

Import FinanceTracker.

Lemma kind_has_vocabulary (c : Categories) (k : string) :
  k = "income" \/ k = "expense" -> getitem c k = inr (vocabulary c k).
Proof. intros [->| ->]; reflexivity. Qed.

Lemma vocabulary_setitem (c : Categories) (k k' : string) (v : list string) :
  k = "income" \/ k = "expense" ->
  vocabulary (setitem c k v) k' = if String.eqb k' k then v else vocabulary c k'.
Proof.
  intros [->| ->]; unfold vocabulary, getitem, setitem; simpl;
    destruct (String.eqb k' "income") eqn:E1;
    destruct (String.eqb k' "expense") eqn:E2; try reflexivity;
    apply String.eqb_eq in E1, E2; congruence.
Qed.

Lemma kind_mem (k : string) :
  Str.mem k ["income"; "expense"] = true <-> k = "income" \/ k = "expense".
Proof.
  rewrite mem_In. simpl. intuition congruence.
Qed.

(** ** [add_transaction] *)

Section AddTransaction.

Variable strftime_ymd : Z -> string.
Variables (now : datetime) (self : t) (file : file_state).
Variables (amount : number) (category description transaction_type : string).
Variable date : option string.

Let kind := Str.lower transaction_type.
Let entry :=
  Transaction.__init__ strftime_ymd now amount category description
    transaction_type date.
Let grown :=
  if Str.mem category (vocabulary (categories self) kind)
  then categories self
  else setitem (categories self) kind
         (vocabulary (categories self) kind ++ [category]).

(** what a call with a valid type does *)
Lemma add_transaction_valid :
  kind = "income" \/ kind = "expense" ->
  add_transaction strftime_ymd now self file amount category description
    transaction_type date
  = (inr entry,
     mk (data_file self) (transactions self ++ [entry]) grown,
     save_data (mk (data_file self) (transactions self ++ [entry]) grown)).
Proof.
  intros Hk. unfold add_transaction. fold kind.
  apply kind_mem in Hk as Hm. rewrite Hm. simpl negb. cbv iota.
  rewrite (kind_has_vocabulary _ _ Hk).
  unfold grown. destruct (Str.mem category _); reflexivity.
Qed.

Lemma grown_vocabulary (k : string) :
  kind = "income" \/ kind = "expense" ->
  vocabulary grown k
  = if String.eqb k kind && negb (Str.mem category (vocabulary (categories self) kind))
    then (vocabulary (categories self) kind ++ [category])%list
    else vocabulary (categories self) k.
Proof.
  intros Hk. unfold grown.
  destruct (Str.mem category _) eqn:Hm; simpl.
  - now rewrite andb_false_r.
  - rewrite andb_true_r. now apply vocabulary_setitem.
Qed.

End AddTransaction.

Lemma str_le_total (a b : string) : Str.le a b = true \/ Str.le b a = true.
Proof. apply String.leb_total. Qed.

(** listing without filters shows every entry of the store *)
Lemma get_transactions_all (self : t) (x : Transaction.t) :
  In x (fst (get_transactions self None None None None))
  <-> In x (transactions self).
Proof.
  unfold get_transactions, keep_if. simpl fst.
  apply sorted_reverse_In.
Qed.

(** C3: a call of add whose kind is neither Income nor Expense, in any
    letter case, fails with the error of an invalid kind, and leaves the
    store as it was: the entries, both vocabularies and the data file are
    those before the call. *)
Theorem add_transaction_invalid_kind
    (strftime_ymd : Z -> string) (now : datetime) (self : t)
    (file : file_state) (amount : number)
    (category description transaction_type : string) (date : option string) :
  Str.lower transaction_type <> "income" ->
  Str.lower transaction_type <> "expense" ->
  exists msg,
    add_transaction strftime_ymd now self file amount category description
      transaction_type date
    = (inl (ValueError msg), self, file).
Proof.
  intros Hi He. unfold add_transaction.
  destruct (Str.mem (Str.lower transaction_type) ["income"; "expense"]) eqn:Hm.
  - apply kind_mem in Hm. tauto.
  - simpl. eexists. reflexivity.
Qed.

Lemma add_transaction_invalid_kind_witness :
  exists msg,
    add_transaction Sample.strftime_ymd Sample.now Sample.ledger Absent
      (PyFloat 12.5) "Pets" "Dog food" "Transfer" None
    = (inl (ValueError msg), Sample.ledger, Absent).
Proof.
  apply add_transaction_invalid_kind; intros H; vm_compute in H; discriminate H.
Defined.

(** C5: a call of add with a valid kind returns an entry whose amount is
    the absolute value of the amount given, whose id is the one derived
    from the clock, whose date is the current date when none is given and
    the given date otherwise, and whose category, description and kind are
    those given; the entry is appended to the collection, listing without
    filters shows it, its category is in the vocabulary of its kind
    afterwards (added at the end when it was new, the vocabulary being
    unchanged otherwise), and the store is saved. *)
Theorem add_transaction_creates_entry
    (strftime_ymd : Z -> string) (now : datetime) (self : t)
    (file : file_state) (amount : number)
    (category description transaction_type : string) (date : option string) :
  Str.lower transaction_type = "income"
  \/ Str.lower transaction_type = "expense" ->
  exists x self' file',
    add_transaction strftime_ymd now self file amount category description
      transaction_type date
    = (inr x, self', file')
    /\ Transaction.amount x = Num.abs amount
    /\ Transaction.id x = Transaction._generate_id now
    /\ (Str.given date = false -> Transaction.date x = strftime_ymd (day now))
    /\ (forall d, date = Some d -> d <> "" -> Transaction.date x = d)
    /\ Transaction.category x = category
    /\ Transaction.description x = description
    /\ Transaction.transaction_type x = Str.lower transaction_type
    /\ transactions self' = (transactions self ++ [x])%list
    /\ In x (fst (get_transactions self' None None None None))
    /\ In category
         (vocabulary (categories self') (Str.lower transaction_type))
    /\ (In category (vocabulary (categories self) (Str.lower transaction_type))
        -> categories self' = categories self)
    /\ (~ In category (vocabulary (categories self) (Str.lower transaction_type))
        -> vocabulary (categories self') (Str.lower transaction_type)
           = (vocabulary (categories self) (Str.lower transaction_type)
              ++ [category])%list)
    /\ file' = save_data self'.
Proof.
  intros Hk.
  pose proof (add_transaction_valid strftime_ymd now self file amount
                category description transaction_type date Hk) as Hadd.
  pose proof (grown_vocabulary self category transaction_type
                (Str.lower transaction_type) Hk) as Hv.
  cbv zeta in Hadd, Hv. rewrite String.eqb_refl in Hv. simpl andb in Hv.
  eexists _, _, _. split; [exact Hadd|].
  repeat split; try reflexivity.
  - unfold Transaction.__init__, Transaction.date_or_today. simpl.
    destruct date as [d|]; simpl; [|reflexivity].
    intros Hd. now rewrite Hd.
  - intros d -> Hd. simpl. unfold Transaction.date_or_today.
    apply truthy_nonempty in Hd. now rewrite Hd.
  - apply get_transactions_all. simpl. apply in_or_app. right. now left.
  - simpl categories. rewrite Hv.
    destruct (Str.mem category _) eqn:Hm; simpl.
    + now apply mem_In.
    + apply in_or_app. right. now left.
  - intros Hin. apply mem_In in Hin. simpl categories. now rewrite Hin.
  - intros Hnin. apply mem_false in Hnin. simpl categories.
    rewrite Hv, Hnin. reflexivity.
Qed.

Lemma add_transaction_creates_entry_witness :
  exists x self' file',
    add_transaction Sample.strftime_ymd Sample.now Sample.ledger Absent
      (PyFloat (-3.5)) "Pets" "Dog food" "Expense" None
    = (inr x, self', file')
    /\ Transaction.amount x = PyFloat 3.5
    /\ Transaction.id x = 123456.
Proof.
  destruct (add_transaction_creates_entry Sample.strftime_ymd Sample.now
              Sample.ledger Absent (PyFloat (-3.5)) "Pets" "Dog food"
              "Expense" None)
    as (x & self' & file' & Hadd & Hamount & Hid & _).
  - right. reflexivity.
  - exists x, self', file'. split; [exact Hadd|]. split.
    + exact Hamount.
    + rewrite Hid. reflexivity.
Defined.

(** C9: add takes the kind in any letter case: when the lowercase form of
    the kind given is "income" or "expense" the call succeeds, and the kind
    of the entry returned and stored is that lowercase form, so it is
    exactly "income" or exactly "expense". *)
Theorem add_transaction_kind_any_case
    (strftime_ymd : Z -> string) (now : datetime) (self : t)
    (file : file_state) (amount : number)
    (category description transaction_type : string) (date : option string) :
  Str.lower transaction_type = "income"
  \/ Str.lower transaction_type = "expense" ->
  exists x self' file',
    add_transaction strftime_ymd now self file amount category description
      transaction_type date
    = (inr x, self', file')
    /\ In x (transactions self')
    /\ Transaction.transaction_type x = Str.lower transaction_type
    /\ (Transaction.transaction_type x = "income"
        \/ Transaction.transaction_type x = "expense").
Proof.
  intros Hk.
  pose proof (add_transaction_valid strftime_ymd now self file amount
                category description transaction_type date Hk) as Hadd.
  cbv zeta in Hadd.
  eexists _, _, _. split; [exact Hadd|]. repeat split.
  - simpl. apply in_or_app. right. now left.
  - exact Hk.
Qed.

Lemma add_transaction_kind_any_case_witness :
  (exists x self' file',
     add_transaction Sample.strftime_ymd Sample.now Sample.ledger Absent
       (PyInt 1000) "Salary" "March" "Income" None
     = (inr x, self', file')
     /\ Transaction.transaction_type x = "income")
  /\ (exists x self' file',
        add_transaction Sample.strftime_ymd Sample.now Sample.ledger Absent
          (PyFloat 80) "Food" "Dinner" "EXPENSE" (Some "2024-02-28")
        = (inr x, self', file')
        /\ Transaction.transaction_type x = "expense").
Proof.
  split.
  - destruct (add_transaction_kind_any_case Sample.strftime_ymd Sample.now
                Sample.ledger Absent (PyInt 1000) "Salary" "March" "Income"
                None)
      as (x & self' & file' & Hadd & _ & Hty & _).
    + left. reflexivity.
    + exists x, self', file'. split; [exact Hadd|exact Hty].
  - destruct (add_transaction_kind_any_case Sample.strftime_ymd Sample.now
                Sample.ledger Absent (PyFloat 80) "Food" "Dinner" "EXPENSE"
                (Some "2024-02-28"))
      as (x & self' & file' & Hadd & _ & Hty & _).
    + right. reflexivity.
    + exists x, self', file'. split; [exact Hadd|exact Hty].
Defined.

(** C10: the id given to an entry at its creation is a non-negative integer
    below 1,000,000, whatever the reading of the clock: this holds of the
    generator, of the constructor and of the entry that add returns. *)
Theorem generated_id_range
    (strftime_ymd : Z -> string) (now : datetime) :
  0 <= Transaction._generate_id now < 1000000
  /\ (forall amount category description transaction_type date,
        0 <= Transaction.id
               (Transaction.__init__ strftime_ymd now amount category
                  description transaction_type date) < 1000000)
  /\ (forall self file amount category description transaction_type date x
             self' file',
        add_transaction strftime_ymd now self file amount category
          description transaction_type date = (inr x, self', file') ->
        0 <= Transaction.id x < 1000000).
Proof.
  assert (Hr : 0 <= Transaction._generate_id now < 1000000)
    by (unfold Transaction._generate_id; apply Z.mod_pos_bound; lia).
  split; [exact Hr|]. split.
  - intros. exact Hr.
  - intros self file amount category description transaction_type date x
           self' file'.
    unfold add_transaction.
    destruct (negb _); [discriminate|].
    destruct (getitem _ _); [discriminate|].
    intros H. injection H as <- _ _. exact Hr.
Qed.

(** ** [delete_transaction] *)

Section Filter.

Context {A : Type}.
Variable p : A -> bool.

Lemma filter_split_length (l : list A) :
  length l
  = (length (filter p l) + length (filter (fun x => negb (p x)) l))%nat.
Proof.
  induction l as [|x l IH]; simpl; [reflexivity|].
  destruct (p x); simpl; lia.
Qed.

Lemma filter_none (l : list A) :
  filter p l = [] -> filter (fun x => negb (p x)) l = l.
Proof.
  induction l as [|x l IH]; simpl; [reflexivity|].
  destruct (p x); simpl; [discriminate|].
  intros H. now rewrite IH.
Qed.

End Filter.

Lemma remove_first_single (transaction_id : Z) (l : list Transaction.t) :
  length (filter (fun x => Transaction.id x =? transaction_id) l) = 1%nat ->
  filter (fun x => negb (Transaction.id x =? transaction_id)) l
  = Spec.remove_first transaction_id l.
Proof.
  induction l as [|x l IH]; simpl; [discriminate|].
  destruct (Transaction.id x =? transaction_id); simpl; intros H.
  - apply filter_none. injection H as H.
    now apply length_zero_iff_nil.
  - now rewrite IH.
Qed.

(** C1, as the code has it: delete removes every entry whose id matches,
    which is exactly one entry, the first, when a single entry carries the
    id; it returns true when such an entry is present, and then saves the
    store; when no entry has the id it returns false, the collection is
    unchanged and nothing is saved.  The vocabularies are never touched. *)
Theorem delete_transaction_removes_matching
    (self : t) (file : file_state) (transaction_id : Z) :
  let matching :=
    filter (fun x => Transaction.id x =? transaction_id) (transactions self) in
  exists removed self' file',
    delete_transaction self file transaction_id = (removed, self', file')
    /\ (forall x, In x (transactions self')
                  <-> In x (transactions self)
                      /\ Transaction.id x <> transaction_id)
    /\ length (transactions self)
       = (length matching + length (transactions self'))%nat
    /\ categories self' = categories self
    /\ (matching <> [] -> removed = true /\ file' = save_data self')
    /\ (matching = [] -> removed = false /\ self' = self /\ file' = file)
    /\ (length matching = 1%nat ->
        transactions self'
        = Spec.remove_first transaction_id (transactions self)).
Proof.
  intros matching. unfold delete_transaction.
  set (rest := filter (fun x => negb (Transaction.id x =? transaction_id))
                 (transactions self)).
  pose proof (filter_split_length
                (fun x => Transaction.id x =? transaction_id)
                (transactions self)) as Hlen.
  fold matching rest in Hlen.
  assert (Hcommon :
    (forall x, In x rest
               <-> In x (transactions self)
                   /\ Transaction.id x <> transaction_id)
    /\ length (transactions self) = (length matching + length rest)%nat
    /\ (length matching = 1%nat ->
        rest = Spec.remove_first transaction_id (transactions self))).
  { split; [|split; [exact Hlen|apply remove_first_single]].
    intros x. unfold rest. rewrite filter_In, negb_true_iff, Z.eqb_neq.
    reflexivity. }
  destruct Hcommon as (Hin & Hl & Hone).
  simpl transactions.
  destruct (length rest <? length (transactions self))%nat eqn:Hlt.
  - exists true, (set_transactions self rest),
      (save_data (set_transactions self rest)).
    apply Nat.ltb_lt in Hlt.
    split; [reflexivity|]. split; [exact Hin|]. split; [exact Hl|].
    split; [reflexivity|]. split; [now split|]. split; [|exact Hone].
    intros Hm. rewrite Hm in Hl. simpl in Hl. lia.
  - exists false, (set_transactions self rest), file.
    apply Nat.ltb_ge in Hlt.
    assert (Hm : matching = []) by (apply length_zero_iff_nil; lia).
    assert (Hrest : rest = transactions self) by (apply filter_none; exact Hm).
    split; [reflexivity|]. split; [exact Hin|]. split; [exact Hl|].
    split; [reflexivity|]. split; [intros Hne; contradiction|].
    split; [|exact Hone].
    intros _. split; [reflexivity|]. split; [|reflexivity].
    unfold set_transactions. rewrite Hrest. now destruct self.
Qed.

Lemma delete_transaction_removes_matching_witness :
  exists removed self' file',
    delete_transaction Sample.ledger Absent 2 = (removed, self', file')
    /\ removed = true
    /\ transactions self' = [Sample.food; Sample.salary].
Proof.
  destruct (delete_transaction_removes_matching Sample.ledger Absent 2)
    as (removed & self' & file' & Hdel & _ & _ & _ & Hsome & _ & Hone).
  exists removed, self', file'. split; [exact Hdel|]. split.
  - apply Hsome. discriminate.
  - rewrite Hone; reflexivity.
Defined.

(** C1 as stated fails where two entries carry the id: both are removed,
    not the first alone. *)
Lemma delete_transaction_first_only_counterexample :
  transactions Sample.ledger = [Sample.food; Sample.bills; Sample.salary]
  /\ Transaction.id Sample.food = 1 /\ Transaction.id Sample.salary = 1
  /\ Spec.remove_first 1 (transactions Sample.ledger)
     = [Sample.bills; Sample.salary]
  /\ delete_transaction Sample.ledger Absent 1
     = (true, Sample.store [Sample.bills],
        save_data (Sample.store [Sample.bills]))
  /\ transactions (snd (fst (delete_transaction Sample.ledger Absent 1)))
     <> Spec.remove_first 1 (transactions Sample.ledger)
  /\ (length (transactions (snd (fst (delete_transaction Sample.ledger Absent 1))))
      + 1 <> length (transactions Sample.ledger))%nat.
Proof.
  repeat split; try reflexivity.
  - vm_compute. discriminate.
  - vm_compute. discriminate.
Qed.

(** ** [get_transactions] *)

Lemma keep_if_filter (arg : option string)
    (p : string -> Transaction.t -> bool) (l : list Transaction.t) :
  keep_if arg p l = filter (fun x => Spec.when_nonempty arg (fun a => p a x)) l.
Proof.
  unfold keep_if, Spec.when_nonempty.
  destruct arg as [a|]; [destruct (Str.truthy a)|];
    try reflexivity; now rewrite filter_true.
Qed.

Lemma filter_filter {A : Type} (p q : A -> bool) (l : list A) :
  filter q (filter p l) = filter (fun x => p x && q x) l.
Proof.
  induction l as [|x l IH]; simpl; [reflexivity|].
  destruct (p x); simpl; [destruct (q x)|]; now rewrite IH.
Qed.

(** the four comprehensions amount to one *)
Lemma get_transactions_filter
    (self : t) (start_date end_date category kind : option string) :
  get_transactions self start_date end_date category kind
  = (sorted_reverse Str.le Transaction.date
       (filter (Spec.keeps_nonempty start_date end_date category kind)
          (transactions self)),
     self).
Proof.
  unfold get_transactions. rewrite !keep_if_filter, !filter_filter.
  do 2 f_equal. apply filter_ext. intros x.
  unfold Spec.keeps_nonempty. now rewrite !andb_assoc.
Qed.

Lemma when_nonempty_true (arg : option string) (p : string -> bool) :
  Spec.when_nonempty arg p = true
  <-> (forall a, arg = Some a -> a <> "" -> p a = true).
Proof.
  unfold Spec.when_nonempty. destruct arg as [a|].
  - destruct (Str.truthy a) eqn:Ha.
    + split.
      * intros Hp b [= <-] _. exact Hp.
      * intros H. apply H; [reflexivity|]. now apply truthy_nonempty.
    + split; [|reflexivity].
      intros _ b [= <-] Hb. apply truthy_nonempty in Hb. congruence.
  - split; [discriminate|reflexivity].
Qed.

(** C4, as the code has it: filter keeps exactly the entries whose date is
    at least the start, at most the end, whose category equals the given
    one ignoring letter case and whose kind is the given one, each test
    applying when its argument is given and is not the empty string; the
    entries kept come back sorted by date, descending; the range
    2024-02-01..2024-02-29 leaves out 2024-01-31 and keeps 2024-02-15; the
    store is the same after the call. *)
Theorem get_transactions_keeps_and_sorts
    (self : t) (start_date end_date category kind : option string) :
  exists result,
    get_transactions self start_date end_date category kind = (result, self)
    /\ Permutation result
         (filter (Spec.keeps_nonempty start_date end_date category kind)
            (transactions self))
    /\ (forall x,
          In x result
          <-> In x (transactions self)
              /\ (forall a, start_date = Some a -> a <> "" ->
                    Str.le a (Transaction.date x) = true)
              /\ (forall a, end_date = Some a -> a <> "" ->
                    Str.le (Transaction.date x) a = true)
              /\ (forall a, category = Some a -> a <> "" ->
                    Str.lower (Transaction.category x) = Str.lower a)
              /\ (forall a, kind = Some a -> a <> "" ->
                    Transaction.transaction_type x = Str.lower a))
    /\ descending Str.le Transaction.date result
    /\ fst (get_transactions (Sample.store [Sample.bills; Sample.food])
              (Some "2024-02-01") (Some "2024-02-29") None None)
       = [Sample.food].
Proof.
  eexists. split; [apply get_transactions_filter|].
  split; [symmetry; apply sorted_reverse_perm|].
  split; [|split; [apply sorted_reverse_descending, str_le_total|reflexivity]].
  intros x. rewrite sorted_reverse_In, filter_In.
  unfold Spec.keeps_nonempty. rewrite !andb_true_iff, !when_nonempty_true.
  split.
  - intros (Hin & ((Hs & He) & Hc) & Hk).
    repeat split; try assumption.
    + intros a Ha Hne. apply String.eqb_eq. now apply Hc.
    + intros a Ha Hne. apply String.eqb_eq. now apply Hk.
  - intros (Hin & Hs & He & Hc & Hk).
    repeat split; try assumption.
    + intros a Ha Hne. apply String.eqb_eq. now apply Hc.
    + intros a Ha Hne. apply String.eqb_eq. now apply Hk.
Qed.

Lemma get_transactions_keeps_and_sorts_witness :
  exists result,
    get_transactions Sample.ledger (Some "2024-02-01") None (Some "FOOD")
      (Some "Expense")
    = (result, Sample.ledger)
    /\ In Sample.food result.
Proof.
  destruct (get_transactions_keeps_and_sorts Sample.ledger
              (Some "2024-02-01") None (Some "FOOD") (Some "Expense"))
    as (result & Hget & _ & Hin & _).
  exists result. split; [exact Hget|]. apply Hin.
  split; [left; reflexivity|].
  repeat split; intros a [= <-] _; reflexivity.
Defined.

(** C4 as stated fails for an argument given as the empty string: asked
    for the category "", the code applies no category test and returns an
    entry of category "Food". *)
Lemma get_transactions_empty_category_counterexample :
  Transaction.category Sample.food = "Food"
  /\ Spec.keeps None None (Some "") None Sample.food = false
  /\ get_transactions (Sample.store [Sample.food]) None None (Some "") None
     = ([Sample.food], Sample.store [Sample.food]).
Proof. repeat split. Qed.

(** ** Reading records *)

Lemma getitem_exn (data : json) (k : string) (e : exn) :
  Dyn.getitem data k = inl e -> e = TypeError \/ e = KeyError k.
Proof.
  unfold Dyn.getitem, Ex.ret, Ex.raise.
  destruct data; try (intros [= <-]; now left).
  destruct (find _ _); intros [= <-]. now right.
Qed.

Lemma abs_arg_exn (v : json) (e : exn) :
  Dyn.abs_arg v = inl e -> e = TypeError.
Proof. unfold Dyn.abs_arg, Ex.ret, Ex.raise. destruct v; congruence. Qed.

Lemma lower_arg_exn (v : json) (e : exn) :
  Dyn.lower_arg v = inl e -> e = AttributeError.
Proof. unfold Dyn.lower_arg, Ex.ret, Ex.raise. destruct v; congruence. Qed.

(** splits a sequence [x <- m ;; k] on what [m] does *)
Ltac bind_case H :=
  match type of H with
  | Ex.bind ?m _ = _ =>
      let E := fresh "E" in destruct m eqn:E; simpl in H
  end.

Ltac exn_of H :=
  first
    [ apply getitem_exn in H; destruct H as [->| ->];
      [left; reflexivity | right; right; eexists; reflexivity]
    | apply abs_arg_exn in H; subst; left; reflexivity
    | apply lower_arg_exn in H; subst; right; left; reflexivity ].

(** the same, closing the case where [m] raises *)
Ltac bind_exn H :=
  match type of H with
  | Ex.bind ?m _ = _ =>
      let E := fresh "E" in
      destruct m eqn:E; simpl in H; [injection H as <-; exn_of E|]
  end.

Section ReadingRecords.

Variable strftime_ymd : Z -> string.
Variable now : datetime.

Lemma from_dict_exn (data : json) (e : exn) :
  Transaction.from_dict strftime_ymd now data = inl e -> load_exn e.
Proof.
  unfold Transaction.from_dict, load_exn. intros H.
  repeat bind_exn H.
  unfold Ex.ret in H. discriminate H.
Qed.

Lemma mapM_from_dict_exn (items : list json) (e : exn) :
  Ex.mapM (Transaction.from_dict strftime_ymd now) items = inl e ->
  load_exn e.
Proof.
  induction items as [|v items IH]; simpl; [discriminate|].
  destruct (Transaction.from_dict strftime_ymd now v) eqn:Ev.
  - intros [= <-]. now apply from_dict_exn in Ev.
  - destruct (Ex.mapM _ items); [|discriminate].
    intros [= <-]. now apply IH.
Qed.

(** the constructor establishes [entry_ok], the day being printed as a
    non-empty string *)
Lemma init_entry_ok amount category description transaction_type date :
  (forall d, strftime_ymd d <> "") ->
  entry_ok (Transaction.__init__ strftime_ymd now amount category
              description transaction_type date).
Proof.
  intros Hday. unfold entry_ok. simpl. split; [apply abs_idem|].
  split; [apply lower_idem|].
  unfold Transaction.date_or_today. destruct date as [d|]; [|apply Hday].
  destruct (Str.truthy d) eqn:Hd; [|apply Hday].
  now apply truthy_nonempty.
Qed.

Lemma from_dict_entry_ok (data : json) (x : Transaction.t) :
  (forall d, strftime_ymd d <> "") ->
  Transaction.from_dict strftime_ymd now data = inr (Some x) -> entry_ok x.
Proof.
  intros Hday. unfold Transaction.from_dict. intros H.
  repeat (bind_case H; [discriminate H|]).
  unfold Ex.ret in H.
  repeat match type of H with
         | context [match ?d with Some _ => _ | None => _ end] =>
             destruct d; [|discriminate H]
         end.
  injection H as <-.
  exact (init_entry_ok _ _ _ _ _ Hday).
Qed.

(** a record written by [to_dict] is read back as it was *)
Lemma from_dict_to_dict (x : Transaction.t) :
  entry_ok x ->
  Transaction.from_dict strftime_ymd now (Transaction.to_dict x)
  = inr (Some x).
Proof.
  intros (Ha & Ht & Hd). apply truthy_nonempty in Hd.
  destruct x as [i a c d ty dt]. simpl in *.
  unfold Transaction.from_dict. simpl.
  destruct a as [z|q]; simpl; unfold Ex.ret, Transaction.set_id,
    Transaction.__init__, Transaction.date_or_today; simpl in *;
    rewrite Hd; congruence.
Qed.

Lemma mapM_from_dict_to_dict (l : list Transaction.t) :
  Forall entry_ok l ->
  Ex.mapM (Transaction.from_dict strftime_ymd now)
    (map Transaction.to_dict l)
  = inr (map Some l).
Proof.
  induction 1 as [|x l Hx _ IH]; simpl; [reflexivity|].
  now rewrite (from_dict_to_dict _ Hx), IH.
Qed.

End ReadingRecords.

Lemma all_some_map_Some {A : Type} (l : list A) :
  all_some (map Some l) = Some l.
Proof. induction l as [|x l IH]; simpl; [reflexivity|now rewrite IH]. Qed.

Lemma all_some_Forall {A : Type} (P : A -> Prop) (l : list (option A))
    (l' : list A) :
  (forall x, In (Some x) l -> P x) -> all_some l = Some l' -> Forall P l'.
Proof.
  revert l'. induction l as [|o l IH]; simpl; intros l' HP.
  - intros [= <-]. constructor.
  - destruct o as [a|]; [|discriminate].
    destruct (all_some l) as [l''|]; [|discriminate].
    intros [= <-]. constructor; [apply HP; now left|].
    apply IH; [|reflexivity]. intros x Hx. apply HP. now right.
Qed.

Lemma all_str_map_JStr (l : list string) : all_str (map JStr l) = Some l.
Proof. induction l as [|x l IH]; simpl; [reflexivity|now rewrite IH]. Qed.

Lemma hashable_map_JStr (l : list string) :
  forallb Dyn.hashable (map JStr l) = true.
Proof. induction l as [|x l IH]; simpl; [reflexivity|exact IH]. Qed.

(** ** [load_data] *)

Lemma grows_refl (c : Categories) : grows c c.
Proof. intros k x H. exact H. Qed.

Lemma grows_trans (c1 c2 c3 : Categories) :
  grows c1 c2 -> grows c2 c3 -> grows c1 c3.
Proof. intros H12 H23 k x H. apply H23, H12, H. Qed.

Lemma has_key_kind (k : string) :
  has_key k = true <-> k = "income" \/ k = "expense".
Proof.
  unfold has_key. rewrite orb_true_iff, !String.eqb_eq. reflexivity.
Qed.

Section Loading.

Variable strftime_ymd : Z -> string.
Variable list_set : list string -> list string.
Variable now : datetime.

(** [list(set(l))] loses no element of [l] *)
Hypothesis list_set_keeps : forall l x, In x l -> In x (list_set l).

Lemma merge_step_exn (st : option t) (kv : string * json) (e : exn) :
  merge_step list_set st kv = inl e -> e = TypeError.
Proof.
  unfold merge_step, Ex.ret, Ex.raise. destruct kv as [k cats].
  destruct (has_key k); [|discriminate].
  destruct cats; try congruence.
  destruct (forallb Dyn.hashable l); congruence.
Qed.

Lemma merge_step_none (kv : string * json) (r : option t) :
  merge_step list_set None kv = inr r -> r = None.
Proof.
  unfold merge_step, Ex.ret, Ex.raise. destruct kv as [k cats].
  destruct (has_key k); [|congruence].
  destruct cats; try congruence.
  destruct (forallb Dyn.hashable l); congruence.
Qed.

Lemma merge_step_some (s s' : t) (kv : string * json) :
  merge_step list_set (Some s) kv = inr (Some s') ->
  data_file s' = data_file s
  /\ transactions s' = transactions s
  /\ grows (categories s) (categories s').
Proof.
  unfold merge_step, Ex.ret, Ex.raise. destruct kv as [k cats].
  destruct (has_key k) eqn:Hk.
  - apply has_key_kind in Hk.
    destruct cats; try discriminate.
    destruct (forallb Dyn.hashable l); [|discriminate].
    destruct (all_str l) as [strs|]; [|discriminate].
    rewrite (kind_has_vocabulary _ _ Hk).
    intros [= <-]. simpl. repeat split.
    intros k' x Hin. rewrite (vocabulary_setitem _ _ _ _ Hk).
    destruct (String.eqb k' k) eqn:Hkk; [|exact Hin].
    apply String.eqb_eq in Hkk. subst k'.
    apply list_set_keeps, in_or_app. now left.
  - intros [= <-]. repeat split. apply grows_refl.
Qed.

Lemma merge_loop_exn (kvs : list (string * json)) (st st' : option t)
    (e : exn) :
  merge_loop list_set st kvs = (Some e, st') -> e = TypeError.
Proof.
  revert st. induction kvs as [|kv kvs IH]; simpl; intros st.
  - discriminate.
  - destruct (merge_step list_set st kv) eqn:Hs.
    + intros [= <- _]. now apply merge_step_exn in Hs.
    + apply IH.
Qed.

Lemma merge_loop_none (kvs : list (string * json)) :
  snd (merge_loop list_set None kvs) = None.
Proof.
  induction kvs as [|kv kvs IH]; simpl; [reflexivity|].
  destruct (merge_step list_set None kv) eqn:Hs; [reflexivity|].
  apply merge_step_none in Hs. now subst.
Qed.

Lemma merge_loop_some (kvs : list (string * json)) (s s' : t)
    (r : option exn) :
  merge_loop list_set (Some s) kvs = (r, Some s') ->
  data_file s' = data_file s
  /\ transactions s' = transactions s
  /\ grows (categories s) (categories s').
Proof.
  revert s. induction kvs as [|kv kvs IH]; simpl; intros s.
  - intros [= _ <-]. repeat split. apply grows_refl.
  - destruct (merge_step list_set (Some s) kv) as [e|[s1|]] eqn:Hs.
    + intros [= _ <-]. repeat split. apply grows_refl.
    + intros Hl. apply merge_step_some in Hs as (Hd & Ht & Hg).
      apply IH in Hl as (Hd' & Ht' & Hg').
      repeat split; try congruence.
      eapply grows_trans; eassumption.
    + intros Hl. pose proof (merge_loop_none kvs) as Hn.
      rewrite Hl in Hn. discriminate Hn.
Qed.

Variables (self : t) (data : json).

(** inside the [try], an exception that the [except] clause catches
    leaves the store as it was *)
Lemma load_try_caught (e : exn) (st : option t) :
  load_try strftime_ymd list_set now self data = (Some e, st) ->
  caught e = true -> st = Some self.
Proof.
  unfold load_try.
  destruct (Dyn.get data "transactions" (JArr [])) as [e1|v]; [congruence|].
  destruct (Dyn.iter v) as [e2|items]; [congruence|].
  destruct (Ex.mapM _ items) as [e3|ts]; [congruence|].
  destruct (Dyn.get data "categories" (JObj [])) as [e4|fc] eqn:Hg.
  { unfold Dyn.get, Ex.ret, Ex.raise in Hg.
    destruct data; try destruct (find _ _); try discriminate Hg;
      injection Hg as <-; intros [= <- _]; discriminate. }
  destruct (Dyn.items fc) as [e5|kvs] eqn:Hi.
  { unfold Dyn.items, Ex.ret, Ex.raise in Hi.
    destruct fc; try discriminate Hi;
      injection Hi as <-; intros [= <- _]; discriminate. }
  intros Hl. apply merge_loop_exn in Hl. subst e. discriminate.
Qed.

Lemma load_try_exn (e : exn) (st : option t) :
  load_try strftime_ymd list_set now self data = (Some e, st) ->
  load_exn e.
Proof.
  unfold load_try.
  destruct (Dyn.get data "transactions" (JArr [])) as [e1|v] eqn:Hg1.
  { unfold Dyn.get, Ex.ret, Ex.raise in Hg1.
    destruct data; try destruct (find _ _); try discriminate Hg1;
      injection Hg1 as <-; intros [= <- _]; right; now left. }
  destruct (Dyn.iter v) as [e2|items] eqn:Hit.
  { unfold Dyn.iter, Ex.ret, Ex.raise in Hit.
    destruct v; try discriminate Hit;
      injection Hit as <-; intros [= <- _]; now left. }
  destruct (Ex.mapM _ items) as [e3|ts] eqn:Hm.
  { intros [= <- _]. now apply mapM_from_dict_exn in Hm. }
  destruct (Dyn.get data "categories" (JObj [])) as [e4|fc] eqn:Hg.
  { unfold Dyn.get, Ex.ret, Ex.raise in Hg.
    destruct data; try destruct (find _ _); try discriminate Hg;
      injection Hg as <-; intros [= <- _]; right; now left. }
  destruct (Dyn.items fc) as [e5|kvs] eqn:Hi.
  { unfold Dyn.items, Ex.ret, Ex.raise in Hi.
    destruct fc; try discriminate Hi;
      injection Hi as <-; intros [= <- _]; right; now left. }
  intros Hl. apply merge_loop_exn in Hl. subst e. now left.
Qed.

(** whatever happens inside the [try], the store keeps its file name and
    loses no category *)
Lemma load_try_state (r : option exn) (s' : t) :
  load_try strftime_ymd list_set now self data = (r, Some s') ->
  data_file s' = data_file self
  /\ grows (categories self) (categories s').
Proof.
  unfold load_try.
  assert (Hself : forall r0, (r0, Some self) = (r, Some s') ->
                  data_file s' = data_file self
                  /\ grows (categories self) (categories s')).
  { intros r0 [= _ <-]. split; [reflexivity|apply grows_refl]. }
  destruct (Dyn.get data "transactions" (JArr [])) as [e1|v]; [apply Hself|].
  destruct (Dyn.iter v) as [e2|items]; [apply Hself|].
  destruct (Ex.mapM _ items) as [e3|ts]; [apply Hself|].
  assert (Hself1 : forall r0,
            (r0, option_map (set_transactions self) (all_some ts))
            = (r, Some s') ->
            data_file s' = data_file self
            /\ grows (categories self) (categories s')).
  { intros r0. destruct (all_some ts); simpl; [|discriminate].
    intros [= _ <-]. split; [reflexivity|apply grows_refl]. }
  destruct (Dyn.get data "categories" (JObj [])) as [e4|fc]; [apply Hself1|].
  destruct (Dyn.items fc) as [e5|kvs]; [apply Hself1|].
  destruct (all_some ts) as [l|]; simpl.
  - intros Hl. apply merge_loop_some in Hl as (Hd & _ & Hg).
    split; assumption.
  - intros Hl. pose proof (merge_loop_none kvs) as Hn.
    rewrite Hl in Hn. discriminate Hn.
Qed.

End Loading.

Section LoadData.

Variable strftime_ymd : Z -> string.
Variable list_set : list string -> list string.
Variables (now : datetime) (self : t) (file : file_state).

(** [load_data] lets through only what the [except] clause does not
    name *)
Lemma load_data_raises (e : exn) :
  load_data strftime_ymd list_set now self file = Raises e ->
  e = TypeError \/ e = AttributeError \/ exists msg, e = UnicodeDecodeError msg.
Proof.
  unfold load_data. destruct file as [|msg|msg|data]; try discriminate.
  - intros [= <-]. right. right. now exists msg.
  - destruct (load_try strftime_ymd list_set now self data)
      as [[e'|] st] eqn:Ht.
    + destruct (caught e') eqn:Hc.
      * destruct st; discriminate.
      * intros [= <-]. apply load_try_exn in Ht.
        destruct Ht as [->|[->|[k ->]]]; auto. discriminate Hc.
    + destruct st; discriminate.
Qed.

(** when [load_data] prints something, it is the message of a caught
    exception, and the store is as it was *)
Lemma load_data_reported (s' : t) (out : list string) :
  load_data strftime_ymd list_set now self file = Returns (s', out) ->
  out <> [] ->
  s' = self /\ exists e, caught e = true /\ out = [load_message e].
Proof.
  unfold load_data. destruct file as [|msg|msg|data].
  - intros [= <- <-] Hout. contradiction.
  - discriminate.
  - intros [= <- <-] _. split; [reflexivity|].
    exists (JSONDecodeError msg). now split.
  - destruct (load_try strftime_ymd list_set now self data)
      as [[e'|] st] eqn:Ht.
    + destruct (caught e') eqn:Hc; [|discriminate].
      rewrite (load_try_caught _ _ _ _ _ _ _ Ht Hc).
      intros [= <- <-] _. split; [reflexivity|]. exists e'. now split.
    + destruct st; [|discriminate].
      intros [= <- <-] Hout. contradiction.
Qed.

Hypothesis list_set_keeps : forall l x, In x l -> In x (list_set l).

Lemma load_data_grows (s' : t) (out : list string) :
  load_data strftime_ymd list_set now self file = Returns (s', out) ->
  grows (categories self) (categories s').
Proof.
  unfold load_data. destruct file as [|msg|msg|data].
  - intros [= <- _]. apply grows_refl.
  - discriminate.
  - intros [= <- _]. apply grows_refl.
  - destruct (load_try strftime_ymd list_set now self data)
      as [[e'|] [st|]] eqn:Ht; try discriminate.
    + destruct (caught e'); [|discriminate].
      intros [= <- _].
      now apply (load_try_state _ _ _ list_set_keeps) in Ht.
    + destruct (caught e'); discriminate.
    + intros [= <- _].
      now apply (load_try_state _ _ _ list_set_keeps) in Ht.
Qed.

End LoadData.

(** a store that was saved is read back with its entries, the file's
    vocabularies being merged into the default ones *)
Lemma init_after_save (strftime_ymd : Z -> string)
    (list_set : list string -> list string) (now : datetime) (self : t) :
  store_ok self ->
  __init__ strftime_ymd list_set now (data_file self) (save_data self)
  = Returns
      (mk (data_file self) (transactions self)
         {| income := list_set (income default_categories
                                ++ income (categories self))%list;
            expense := list_set (expense default_categories
                                 ++ expense (categories self))%list |},
       []).
Proof.
  intros Hok. unfold __init__, load_data, save_data, load_try.
  simpl Dyn.get. unfold Dyn.iter, Dyn.items, Ex.ret.
  rewrite (mapM_from_dict_to_dict strftime_ymd now _ Hok).
  rewrite all_some_map_Some. simpl.
  rewrite !hashable_map_JStr, !all_str_map_JStr. reflexivity.
Qed.

(** ** Growth of the vocabularies under the mutations *)

Lemma add_transaction_grows (strftime_ymd : Z -> string) (now : datetime)
    (self : t) (file : file_state) (amount : number)
    (category description transaction_type : string) (date : option string)
    (r : ex Transaction.t) (self' : t) (file' : file_state) :
  add_transaction strftime_ymd now self file amount category description
    transaction_type date = (r, self', file') ->
  grows (categories self) (categories self').
Proof.
  destruct (Str.mem (Str.lower transaction_type) ["income"; "expense"]) eqn:Hm.
  - apply kind_mem in Hm.
    rewrite (add_transaction_valid strftime_ymd now self file amount
               category description transaction_type date Hm).
    intros [= _ <- _]. simpl categories. intros k x Hin.
    rewrite (grown_vocabulary self category transaction_type k Hm).
    destruct (String.eqb k (Str.lower transaction_type)) eqn:Hk; simpl;
      [|exact Hin].
    destruct (Str.mem category _); simpl; [exact Hin|].
    apply String.eqb_eq in Hk. subst k. apply in_or_app. now left.
  - unfold add_transaction. rewrite Hm. simpl.
    intros [= _ <- _]. apply grows_refl.
Qed.

Lemma delete_transaction_categories (self : t) (file : file_state)
    (transaction_id : Z) (r : bool) (self' : t) (file' : file_state) :
  delete_transaction self file transaction_id = (r, self', file') ->
  categories self' = categories self.
Proof.
  unfold delete_transaction. destruct (_ <? _)%nat; now intros [= _ <- _].
Qed.

(** ** Every entry of a store comes from the constructor *)

Lemma mapM_In {A B : Type} (f : A -> ex B) (l : list A) (l' : list B) (y : B) :
  Ex.mapM f l = inr l' -> In y l' -> exists x, In x l /\ f x = inr y.
Proof.
  revert l'. induction l as [|x l IH]; simpl; intros l'.
  - intros [= <-] [].
  - destruct (f x) as [e|y0] eqn:Hx; [discriminate|].
    destruct (Ex.mapM f l) as [e|ys]; [discriminate|].
    intros [= <-] [<-|Hin].
    + exists x. split; [now left|exact Hx].
    + destruct (IH ys eq_refl Hin) as (x' & Hx' & Hf).
      exists x'. split; [now right|exact Hf].
Qed.

Section StoreOk.

Variable strftime_ymd : Z -> string.
Variable list_set : list string -> list string.
Variable now : datetime.
Hypothesis day_printed : forall d, strftime_ymd d <> "".
Hypothesis list_set_keeps : forall l x, In x l -> In x (list_set l).

Lemma add_transaction_store_ok self file amount category description
    transaction_type date r self' file' :
  store_ok self ->
  add_transaction strftime_ymd now self file amount category description
    transaction_type date = (r, self', file') ->
  store_ok self'.
Proof.
  intros Hok.
  destruct (Str.mem (Str.lower transaction_type) ["income"; "expense"])
    eqn:Hm.
  - apply kind_mem in Hm.
    rewrite (add_transaction_valid strftime_ymd now self file amount
               category description transaction_type date Hm).
    intros [= _ <- _]. unfold store_ok. simpl.
    apply Forall_app. split; [exact Hok|].
    constructor; [|constructor]. now apply init_entry_ok.
  - unfold add_transaction. rewrite Hm. simpl. now intros [= _ <- _].
Qed.

Lemma delete_transaction_store_ok self file transaction_id r self' file' :
  store_ok self ->
  delete_transaction self file transaction_id = (r, self', file') ->
  store_ok self'.
Proof.
  intros Hok. unfold delete_transaction.
  assert (Hf : store_ok
                 (set_transactions self
                    (filter (fun x => negb (Transaction.id x =? transaction_id))
                       (transactions self)))).
  { unfold store_ok in *. simpl. rewrite Forall_forall in *.
    intros x Hx. apply filter_In in Hx. now apply Hok. }
  destruct (_ <? _)%nat; now intros [= _ <- _].
Qed.

Lemma load_data_store_ok self file s' out :
  store_ok self ->
  load_data strftime_ymd list_set now self file = Returns (s', out) ->
  store_ok s'.
Proof.
  intros Hok. unfold load_data. destruct file as [|msg|msg|data];
    try (now intros [= <- _]); try discriminate.
  assert (Ht : forall r, load_try strftime_ymd list_set now self data
                         = (r, Some s') -> store_ok s').
  { unfold load_try. intros r.
    destruct (Dyn.get data "transactions" (JArr [])) as [e1|v];
      [now intros [= _ <-]|].
    destruct (Dyn.iter v) as [e2|items]; [now intros [= _ <-]|].
    destruct (Ex.mapM _ items) as [e3|ts] eqn:Hm; [now intros [= _ <-]|].
    assert (Hts : forall l, all_some ts = Some l -> Forall entry_ok l).
    { intros l. apply all_some_Forall. intros x Hx.
      destruct (mapM_In _ _ _ _ Hm Hx) as (v' & _ & Hv).
      now apply (from_dict_entry_ok strftime_ymd now v'). }
    destruct (all_some ts) as [l|] eqn:Hl; simpl.
    - specialize (Hts l eq_refl).
      destruct (Dyn.get data "categories" (JObj [])) as [e4|fc];
        [now intros [= _ <-]|].
      destruct (Dyn.items fc) as [e5|kvs]; [now intros [= _ <-]|].
      intros Hloop.
      apply (merge_loop_some list_set list_set_keeps) in Hloop
        as (_ & Htr & _).
      unfold store_ok. now rewrite Htr.
    - destruct (Dyn.get data "categories" (JObj [])) as [e4|fc];
        [discriminate|].
      destruct (Dyn.items fc) as [e5|kvs]; [discriminate|].
      intros Hloop. pose proof (merge_loop_none list_set kvs) as Hn.
      rewrite Hloop in Hn. discriminate Hn. }
  destruct (load_try strftime_ymd list_set now self data)
    as [[e'|] [st|]]; try discriminate.
  - destruct (caught e'); [|discriminate].
    intros [= <- _]. now apply (Ht (Some e')).
  - destruct (caught e'); discriminate.
  - intros [= <- _]. now apply (Ht None).
Qed.

End StoreOk.

(** ** Construction of a store from the data file *)

(** C2: the construction of a store recovers from some malformed
    content and raises on other: with no file it starts empty; on content
    that is not JSON, and on a record that lacks a key, it reports the
    error and starts empty with the default categories, as the message it
    prints says; but on JSON of a wrong shape (a top-level list, a
    transactions field that is a number, an item that is not a record, an
    amount that is a string, also in a record that lacks a key further
    on) and on bytes that are not text, the exception is outside the two
    classes the [except] clause names and reaches the caller. *)
Theorem init_raises_on_wrong_shape
    (strftime_ymd : Z -> string) (list_set : list string -> list string)
    (now : datetime) (data_file : string) :
  let init := __init__ strftime_ymd list_set now data_file in
  let empty := mk data_file [] default_categories in
  init Absent = Returns (empty, [])
  /\ init (Unparsable "Expecting value: line 1 column 1 (char 0)")
     = Returns
         (empty,
          ["Error loading data: Expecting value: line 1 column 1 (char 0). Starting with empty data."])
  /\ init (Content
             (JObj [("transactions",
                     JArr [JObj [("id", JInt 7); ("amount", JFloat 12.5)]])]))
     = Returns
         (empty, ["Error loading data: 'category'. Starting with empty data."])
  /\ init (Content (JArr [])) = Raises AttributeError
  /\ init (Content (JObj [("transactions", JInt 5)])) = Raises TypeError
  /\ init (Content (JObj [("transactions", JArr [JInt 5])])) = Raises TypeError
  /\ init (Content
             (JObj [("transactions",
                     JArr [JObj [("id", JInt 7); ("amount", JStr "abc");
                                 ("category", JStr "Food");
                                 ("description", JStr "Lunch");
                                 ("type", JStr "expense");
                                 ("date", JStr "2024-02-15")]]);
                    ("categories", JObj [])]))
     = Raises TypeError
  /\ init (Content
             (JObj [("transactions",
                     JArr [JObj [("amount", JStr "abc");
                                 ("category", JStr "Food");
                                 ("description", JStr "Lunch");
                                 ("type", JStr "expense");
                                 ("date", JStr "2024-02-15")]])]))
     = Raises TypeError
  /\ init (Content (JObj [("transactions", JArr []);
                          ("categories", JArr [])]))
     = Raises AttributeError
  /\ init (Undecodable "'utf-8' codec can't decode byte 0xff")
     = Raises (UnicodeDecodeError "'utf-8' codec can't decode byte 0xff").
Proof. repeat split. Qed.

(** C6: a store whose entries come from the constructor is read back from
    the file it was saved to with the same entries, field by field and in
    the same order, nothing being reported; each record of the file holds
    under "type" the lowercase string of the kind; and each vocabulary of
    the store read back contains the one that was saved. *)
Theorem save_then_load_round_trip
    (strftime_ymd : Z -> string) (list_set : list string -> list string)
    (now : datetime) (self : t) :
  (forall l x, In x l -> In x (list_set l)) ->
  store_ok self ->
  exists fresh,
    __init__ strftime_ymd list_set now (data_file self) (save_data self)
    = Returns (fresh, [])
    /\ transactions fresh = transactions self
    /\ grows (categories self) (categories fresh)
    /\ (forall x, In x (transactions self) ->
          Dyn.getitem (Transaction.to_dict x) "type"
          = inr (JStr (Str.lower (Transaction.transaction_type x)))
          /\ Transaction.from_dict strftime_ymd now (Transaction.to_dict x)
             = inr (Some x)).
Proof.
  intros Hset Hok. eexists. split; [now apply init_after_save|].
  split; [reflexivity|]. split.
  - intros k x. unfold vocabulary, getitem, Ex.ret, Ex.raise.
    cbn [categories income expense].
    destruct (String.eqb k "income"); [|destruct (String.eqb k "expense")].
    + intros Hin. apply Hset, in_or_app. now right.
    + intros Hin. apply Hset, in_or_app. now right.
    + intros [].
  - intros x Hx. unfold store_ok in Hok. rewrite Forall_forall in Hok.
    specialize (Hok x Hx). split; [|now apply from_dict_to_dict].
    destruct Hok as (_ & Hty & _). simpl. unfold Ex.ret. now rewrite Hty.
Qed.

Lemma save_then_load_round_trip_witness :
  exists fresh,
    __init__ Sample.strftime_ymd Sample.list_set Sample.now
      (data_file Sample.ledger) (save_data Sample.ledger)
    = Returns (fresh, [])
    /\ transactions fresh = [Sample.food; Sample.bills; Sample.salary].
Proof.
  destruct (save_then_load_round_trip Sample.strftime_ymd Sample.list_set
              Sample.now Sample.ledger)
    as (fresh & Hinit & Htr & _).
  - intros l x. apply nodup_In.
  - unfold store_ok. simpl.
    repeat constructor; simpl; discriminate.
  - exists fresh. split; [exact Hinit|exact Htr].
Defined.

(** C8: each operation of the store leaves every category where it was:
    the store constructed from any file has the default categories in its
    vocabularies; loading, adding and deleting lose no category, so each of
    them keeps the vocabularies above the default lists. *)
Theorem vocabularies_only_grow
    (strftime_ymd : Z -> string) (list_set : list string -> list string)
    (now : datetime) :
  (forall l x, In x l -> In x (list_set l)) ->
  (forall data_file file s out,
     __init__ strftime_ymd list_set now data_file file = Returns (s, out) ->
     grows default_categories (categories s))
  /\ (forall self file s out,
        load_data strftime_ymd list_set now self file = Returns (s, out) ->
        grows (categories self) (categories s)
        /\ (grows default_categories (categories self) ->
            grows default_categories (categories s)))
  /\ (forall self file amount category description transaction_type date
             r self' file',
        add_transaction strftime_ymd now self file amount category
          description transaction_type date = (r, self', file') ->
        grows (categories self) (categories self')
        /\ (grows default_categories (categories self) ->
            grows default_categories (categories self')))
  /\ (forall self file transaction_id r self' file',
        delete_transaction self file transaction_id = (r, self', file') ->
        categories self' = categories self
        /\ grows (categories self) (categories self')
        /\ (grows default_categories (categories self) ->
            grows default_categories (categories self'))).
Proof.
  intros Hset. split; [|split; [|split]].
  - intros data_file file s out Hinit. unfold __init__ in Hinit.
    now apply (load_data_grows _ _ _ _ _ Hset) in Hinit.
  - intros self file s out Hload.
    apply (load_data_grows _ _ _ _ _ Hset) in Hload.
    split; [exact Hload|]. intros Hd. eapply grows_trans; eassumption.
  - intros self file amount category description transaction_type date
           r self' file' Hadd.
    apply add_transaction_grows in Hadd.
    split; [exact Hadd|]. intros Hd. eapply grows_trans; eassumption.
  - intros self file transaction_id r self' file' Hdel.
    apply delete_transaction_categories in Hdel. rewrite Hdel.
    split; [reflexivity|]. split; [apply grows_refl|trivial].
Qed.

Lemma vocabularies_only_grow_witness :
  grows default_categories
    (categories
       (snd (fst (add_transaction Sample.strftime_ymd Sample.now
                    Sample.ledger Absent (PyFloat 30) "Pets" "Vet" "expense"
                    None)))).
Proof.
  destruct (vocabularies_only_grow Sample.strftime_ymd Sample.list_set
              Sample.now)
    as (_ & _ & Hadd & _).
  - intros l x. apply nodup_In.
  - set (res := add_transaction Sample.strftime_ymd Sample.now Sample.ledger
                  Absent (PyFloat 30) "Pets" "Vet" "expense" None).
    apply (proj2 (Hadd Sample.ledger Absent (PyFloat 30) "Pets" "Vet"
                    "expense" None (fst (fst res)) (snd (fst res)) (snd res)
                    eq_refl)).
    apply grows_refl.
Defined.

(** ** The report *)

Lemma get_transactions_In (self : t)
    (start_date end_date category kind : option string) (x : Transaction.t) :
  In x (fst (get_transactions self start_date end_date category kind)) ->
  In x (transactions self).
Proof.
  rewrite get_transactions_filter. simpl fst.
  rewrite sorted_reverse_In, filter_In. tauto.
Qed.

(** the summary is defined when every entry is an income or an expense *)
Lemma summary_loop_defined (l : list Transaction.t) (summary : Summary) :
  (forall x, In x l ->
     Transaction.transaction_type x = "income"
     \/ Transaction.transaction_type x = "expense") ->
  exists summary', summary_loop summary l = inr summary'.
Proof.
  revert summary. induction l as [|x l IH]; intros summary Hl; simpl.
  - now exists summary.
  - unfold summary_step.
    destruct (Hl x (or_introl eq_refl)) as [-> | ->]; simpl;
      apply IH; intros y Hy; apply Hl; now right.
Qed.

(** the only exception of the summary is the [KeyError] of an entry that
    is neither an income nor an expense *)
Lemma summary_loop_exn (l : list Transaction.t) (summary : Summary)
    (e : exn) :
  summary_loop summary l = inl e ->
  exists x, In x l /\ e = KeyError (Transaction.transaction_type x)
            /\ Transaction.transaction_type x <> "income"
            /\ Transaction.transaction_type x <> "expense".
Proof.
  revert summary. induction l as [|x l IH]; intros summary; simpl.
  - discriminate.
  - destruct (summary_step summary x) as [e'|summary'] eqn:Hstep; simpl.
    + intros [= <-]. exists x. split; [now left|].
      unfold summary_step, Ex.ret, Ex.raise in Hstep.
      destruct (String.eqb _ "income") eqn:Hi; [discriminate|].
      destruct (String.eqb _ "expense") eqn:He; [discriminate|].
      apply String.eqb_neq in Hi, He. now injection Hstep as <-.
    + intros H. destruct (IH _ H) as (y & Hy & He).
      exists y. split; [now right|exact He].
Qed.

(** * Further properties *)

(** ** The order of a listing *)

Section SortedOrder.

Context {A K : Type}.
Variable le : K -> K -> bool.
Variable key : A -> K.
Hypothesis le_refl : forall a, le a a = true.

(** inserting leaves in place the elements that a test on the key picks,
    and puts a picked element ahead of them *)
Lemma filter_insert_desc (p : K -> bool) (x : A) (l : list A) :
  (forall k, p k = true -> p (key x) = true -> k = key x) ->
  filter (fun y => p (key y)) (insert_desc le key x l)
  = if p (key x) then x :: filter (fun y => p (key y)) l
    else filter (fun y => p (key y)) l.
Proof.
  intros Hp. induction l as [|y l IH]; simpl.
  - destruct (p (key x)); reflexivity.
  - destruct (le (key y) (key x)) eqn:Hle; simpl.
    + destruct (p (key x)); reflexivity.
    + rewrite IH. destruct (p (key y)) eqn:Hy; [|reflexivity].
      destruct (p (key x)) eqn:Hx; [|reflexivity].
      rewrite (Hp (key y) Hy eq_refl), le_refl in Hle. discriminate Hle.
Qed.

(** the sort is stable: the elements of one key keep their order *)
Lemma sorted_reverse_stable (p : K -> bool) (l : list A) :
  (forall k k', p k = true -> p k' = true -> k = k') ->
  filter (fun y => p (key y)) (sorted_reverse le key l)
  = filter (fun y => p (key y)) l.
Proof.
  intros Hp. induction l as [|x l IH]; simpl; [reflexivity|].
  rewrite filter_insert_desc, IH; [reflexivity|].
  intros k Hk Hx. now apply Hp.
Qed.

(** a list already in descending order is returned as it is *)
Lemma sorted_reverse_fixed (l : list A) :
  descending le key l -> sorted_reverse le key l = l.
Proof.
  unfold descending. induction 1 as [|x l Hs IH Hhd]; simpl; [reflexivity|].
  rewrite IH. destruct Hhd as [|y l' Hxy]; simpl; [reflexivity|].
  now rewrite Hxy.
Qed.

End SortedOrder.

Lemma str_le_refl (a : string) : Str.le a a = true.
Proof. destruct (str_le_total a a); assumption. Qed.

(** X1: a listing is stable: the entries of one date come back in the
    order they have in the store, among those that pass the filters. *)
Theorem get_transactions_stable
    (self : t) (start_date end_date category kind : option string)
    (d : string) :
  filter (fun x => String.eqb (Transaction.date x) d)
    (fst (get_transactions self start_date end_date category kind))
  = filter (fun x => String.eqb (Transaction.date x) d)
      (filter (Spec.keeps_nonempty start_date end_date category kind)
         (transactions self)).
Proof.
  rewrite get_transactions_filter. simpl fst.
  apply (sorted_reverse_stable Str.le Transaction.date str_le_refl
           (fun k => String.eqb k d)).
  intros k k' Hk Hk'. apply String.eqb_eq in Hk, Hk'. congruence.
Qed.

(** X2: listing is idempotent: a store that holds the result of a listing
    gives, for the same filters, that result again, in the same order. *)
Theorem get_transactions_idempotent
    (self : t) (start_date end_date category kind : option string) :
  let result := fst (get_transactions self start_date end_date category kind) in
  fst (get_transactions (set_transactions self result)
         start_date end_date category kind)
  = result.
Proof.
  intros result. unfold result. rewrite !get_transactions_filter. simpl.
  set (kept := filter (Spec.keeps_nonempty start_date end_date category kind)
                 (transactions self)).
  assert (Hall : filter (Spec.keeps_nonempty start_date end_date category kind)
                   (sorted_reverse Str.le Transaction.date kept)
                 = sorted_reverse Str.le Transaction.date kept).
  { apply forallb_filter_id, forallb_forall. intros x Hx.
    apply sorted_reverse_In in Hx. unfold kept in Hx.
    now apply filter_In in Hx. }
  rewrite Hall. apply sorted_reverse_fixed.
  apply sorted_reverse_descending, str_le_total.
Qed.

Lemma lower_truthy (s : string) : Str.truthy (Str.lower s) = Str.truthy s.
Proof. destruct s; reflexivity. Qed.

(** X3: the category and the kind asked of a listing count up to letter
    case: two categories, and two kinds, with the same lowercase form give
    the same listing. *)
Theorem get_transactions_case_insensitive
    (self : t) (start_date end_date : option string)
    (category category' kind kind' : string) :
  Str.lower category = Str.lower category' ->
  Str.lower kind = Str.lower kind' ->
  get_transactions self start_date end_date (Some category) (Some kind)
  = get_transactions self start_date end_date (Some category') (Some kind').
Proof.
  intros Hc Hk. rewrite !get_transactions_filter. do 2 f_equal.
  apply filter_ext. intros x. unfold Spec.keeps_nonempty, Spec.when_nonempty.
  rewrite <- (lower_truthy category), <- (lower_truthy category'),
          <- (lower_truthy kind), <- (lower_truthy kind'), Hc, Hk.
  reflexivity.
Qed.

Lemma get_transactions_case_insensitive_witness :
  get_transactions Sample.ledger None None (Some "FOOD") (Some "Expense")
  = get_transactions Sample.ledger None None (Some "food") (Some "EXPENSE").
Proof.
  apply get_transactions_case_insensitive; reflexivity.
Defined.

(** ** Totals *)

(** ** Totals *)

Lemma val_add (a b : number) : (Num.val (Num.add a b) == Num.val a + Num.val b)%Q.
Proof.
  destruct a as [x|q], b as [y|r]; unfold Num.add, Num.val;
    try reflexivity.
  rewrite inject_Z_plus. reflexivity.
Qed.

Lemma val_abs_nonneg (a : number) : (0 <= Num.val (Num.abs a))%Q.
Proof.
  destruct a as [z|q]; unfold Num.abs, Num.val.
  - change 0%Q with (inject_Z 0). rewrite <- Zle_Qle. apply Z.abs_nonneg.
  - apply Qabs_nonneg.
Qed.

Lemma fold_add_nonneg (l : list number) (acc : number) :
  Forall (fun n => (0 <= Num.val n)%Q) l -> (0 <= Num.val acc)%Q ->
  (0 <= Num.val (fold_left Num.add l acc))%Q.
Proof.
  revert acc. induction l as [|n l IH]; intros acc Hl Hacc; simpl;
    [exact Hacc|].
  inversion Hl as [|? ? Hn Hl']; subst. apply IH; [exact Hl'|].
  rewrite val_add, <- (Qplus_0_r 0). now apply Qplus_le_compat.
Qed.

(** a total over entries that come from the constructor is not negative *)
Lemma total_nonneg (kind : string) (l : list Transaction.t) :
  Forall entry_ok l -> (0 <= Num.val (total kind l))%Q.
Proof.
  intros Hl. unfold total, Num.sum. apply fold_add_nonneg; [|apply Qle_refl].
  apply Forall_forall. intros n Hn. apply in_map_iff in Hn as (x & <- & Hx).
  apply filter_In in Hx as [Hx _]. rewrite Forall_forall in Hl.
  destruct (Hl x Hx) as (Habs & _). rewrite <- Habs. apply val_abs_nonneg.
Qed.

(** the listing that the totals are taken over is a rearrangement of the
    entries in range *)
Lemma listing_in_range (self : t) (start_date end_date : option string) :
  Permutation (fst (get_transactions self start_date end_date None None))
    (in_range start_date end_date (transactions self)).
Proof.
  rewrite get_transactions_filter. simpl fst. symmetry.
  apply sorted_reverse_perm.
Qed.

(** X6: in a store whose entries come from the constructor, no total of a
    balance is negative, whatever the range of dates. *)
Theorem get_balance_totals_nonnegative
    (self : t) (start_date end_date : option string) :
  store_ok self ->
  (0 <= Num.val (b_income (get_balance self start_date end_date)))%Q
  /\ (0 <= Num.val (b_expenses (get_balance self start_date end_date)))%Q.
Proof.
  intros Hok.
  assert (Hl : Forall entry_ok
                 (fst (get_transactions self start_date end_date None None))).
  { apply Forall_forall. intros x Hx. apply get_transactions_In in Hx.
    unfold store_ok in Hok. rewrite Forall_forall in Hok. now apply Hok. }
  unfold get_balance. cbn [b_income b_expenses].
  split; now apply total_nonneg.
Qed.

Lemma get_balance_totals_nonnegative_witness :
  (0 <= Num.val (b_income (get_balance Sample.ledger None None)))%Q
  /\ (0 <= Num.val (b_expenses (get_balance Sample.ledger None None)))%Q.
Proof.
  apply get_balance_totals_nonnegative.
  unfold store_ok. simpl. repeat constructor; simpl; discriminate.
Defined.

(** ** The category summary *)

Lemma keys_accumulate (d : amounts) (c : string) (a : number) :
  map fst (accumulate d c a)
  = if Str.mem c (map fst d) then map fst d else (map fst d ++ [c])%list.
Proof.
  induction d as [|[k v] d IH]; simpl; [reflexivity|].
  rewrite (String.eqb_sym c k).
  destruct (String.eqb k c); simpl; [reflexivity|].
  rewrite IH. unfold Str.mem. now destruct (existsb _ _).
Qed.

Lemma keys_accumulate_NoDup (d : amounts) (c : string) (a : number) :
  NoDup (map fst d) -> NoDup (map fst (accumulate d c a)).
Proof.
  intros Hd. rewrite keys_accumulate.
  destruct (Str.mem c (map fst d)) eqn:Hm; [exact Hd|].
  apply mem_false in Hm. apply NoDup_app; [exact Hd|repeat constructor; auto|].
  intros x Hx [<-|[]]. contradiction.
Qed.

Lemma keys_accumulate_In (d : amounts) (c c' : string) (a : number) :
  In c' (map fst (accumulate d c a)) <-> In c' (map fst d) \/ c' = c.
Proof.
  rewrite keys_accumulate.
  destruct (Str.mem c (map fst d)) eqn:Hm.
  - apply mem_In in Hm. split; [now left|]. intros [H| ->]; assumption.
  - rewrite in_app_iff. simpl. intuition congruence.
Qed.

(** what a mapping holds for a category after [d[c] += a] *)
Lemma lookup_accumulate (d : amounts) (c c' : string) (a : number) :
  lookup (accumulate d c a) c'
  = if String.eqb c c'
    then Some (Num.add match lookup d c' with
                       | Some v => v
                       | None => PyInt 0
                       end a)
    else lookup d c'.
Proof.
  unfold lookup. induction d as [|[k v] d IH];
    cbn [accumulate find fst snd option_map].
  - now destruct (String.eqb c c').
  - destruct (String.eqb k c) eqn:Hkc; cbn [find fst snd option_map].
    + apply String.eqb_eq in Hkc. subst k.
      now destruct (String.eqb c c').
    + destruct (String.eqb k c') eqn:Hkc'; cbn [option_map snd].
      * apply String.eqb_eq in Hkc'. subst k.
        now rewrite String.eqb_sym, Hkc.
      * exact IH.
Qed.

Lemma lookup_In (d : amounts) (c : string) (v : number) :
  NoDup (map fst d) -> (In (c, v) d <-> lookup d c = Some v).
Proof.
  unfold lookup. induction d as [|[k w] d IH]; cbn [map fst find];
    intros Hnd.
  - split; [intros []|discriminate].
  - inversion Hnd as [|? ? Hk Hnd']; subst.
    destruct (String.eqb k c) eqn:Hkc; cbn [option_map snd].
    + apply String.eqb_eq in Hkc. subst k. split.
      * intros [[= ->]|Hin]; [reflexivity|].
        exfalso. apply Hk. apply in_map_iff. now exists (c, v).
      * intros [= ->]. now left.
    + apply String.eqb_neq in Hkc. rewrite <- (IH Hnd'). split.
      * intros [[= -> _]|Hin]; [contradiction|exact Hin].
      * intros Hin. now right.
Qed.

Section SummaryLoop.

Variable kind : string.
Hypothesis kind_valid : kind = "income" \/ kind = "expense".

(** a turn of the loop touches the mapping of the entry's type only *)
Lemma summary_step_effect (summary summary' : Summary) (x : Transaction.t) :
  summary_step summary x = inr summary' ->
  summary_of summary' kind
  = if String.eqb (Transaction.transaction_type x) kind
    then accumulate (summary_of summary kind) (Transaction.category x)
           (Transaction.amount x)
    else summary_of summary kind.
Proof.
  unfold summary_step, summary_of, Ex.ret, Ex.raise.
  destruct (String.eqb (Transaction.transaction_type x) "income") eqn:Hi.
  - apply String.eqb_eq in Hi. rewrite Hi. intros [= <-].
    destruct kind_valid as [-> | ->]; reflexivity.
  - destruct (String.eqb (Transaction.transaction_type x) "expense") eqn:He;
      [|discriminate].
    apply String.eqb_eq in He. rewrite He. intros [= <-].
    destruct kind_valid as [-> | ->]; reflexivity.
Qed.

Lemma summary_loop_keys (l : list Transaction.t)
    (summary summary' : Summary) (c : string) :
  summary_loop summary l = inr summary' ->
  In c (map fst (summary_of summary' kind))
  <-> In c (map fst (summary_of summary kind))
      \/ exists x, In x l /\ Transaction.transaction_type x = kind
                   /\ Transaction.category x = c.
Proof.
  revert summary. induction l as [|x l IH]; intros summary; cbn [summary_loop].
  - intros [= <-]. split; [now left|]. intros [H|(x & [] & _)]. exact H.
  - destruct (summary_step summary x) as [e|s1] eqn:Hstep; [discriminate|].
    cbn [Ex.bind]. intros Hloop. rewrite (IH _ Hloop).
    rewrite (summary_step_effect _ _ _ Hstep).
    destruct (String.eqb (Transaction.transaction_type x) kind) eqn:Hk.
    + apply String.eqb_eq in Hk. rewrite keys_accumulate_In. split.
      * intros [[H| ->]|(y & Hy & Hty & Hc)].
        -- now left.
        -- right. exists x. split; [now left|]. now split.
        -- right. exists y. split; [now right|]. now split.
      * intros [H|(y & [<-|Hy] & Hty & Hc)].
        -- left. now left.
        -- left. now right.
        -- right. exists y. now split.
    + apply String.eqb_neq in Hk. split.
      * intros [H|(y & Hy & Hty & Hc)]; [now left|].
        right. exists y. split; [now right|]. now split.
      * intros [H|(y & [<-|Hy] & Hty & Hc)]; [now left|contradiction|].
        right. exists y. now split.
Qed.

Lemma summary_loop_NoDup (l : list Transaction.t)
    (summary summary' : Summary) :
  summary_loop summary l = inr summary' ->
  NoDup (map fst (summary_of summary kind)) ->
  NoDup (map fst (summary_of summary' kind)).
Proof.
  revert summary. induction l as [|x l IH]; intros summary; cbn [summary_loop].
  - now intros [= <-].
  - destruct (summary_step summary x) as [e|s1] eqn:Hstep; [discriminate|].
    cbn [Ex.bind]. intros Hloop Hnd. apply (IH _ Hloop).
    rewrite (summary_step_effect _ _ _ Hstep).
    destruct (String.eqb (Transaction.transaction_type x) kind);
      [now apply keys_accumulate_NoDup|exact Hnd].
Qed.

(** the amount of a category after the loop: the amounts of its entries
    added one by one, in the order of the list, to what the mapping held *)
Lemma summary_loop_lookup (l : list Transaction.t)
    (summary summary' : Summary) (c : string) :
  summary_loop summary l = inr summary' ->
  lookup (summary_of summary' kind) c
  = match of_category kind c l with
    | [] => lookup (summary_of summary kind) c
    | _ :: _ =>
        Some (fold_left Num.add
                (map Transaction.amount (of_category kind c l))
                match lookup (summary_of summary kind) c with
                | Some v => v
                | None => PyInt 0
                end)
    end.
Proof.
  revert summary. induction l as [|x l IH]; intros summary; cbn [summary_loop].
  - now intros [= <-].
  - destruct (summary_step summary x) as [e|s1] eqn:Hstep; [discriminate|].
    cbn [Ex.bind]. intros Hloop. rewrite (IH _ Hloop).
    rewrite (summary_step_effect _ _ _ Hstep).
    unfold of_category. cbn [filter]. fold (of_category kind c l).
    destruct (String.eqb (Transaction.transaction_type x) kind);
      cbn [andb]; [|reflexivity].
    rewrite lookup_accumulate.
    destruct (String.eqb (Transaction.category x) c); [|reflexivity].
    cbn [map fold_left]. now destruct (of_category kind c l).
Qed.

End SummaryLoop.

(** the content of a summary, from the listing it is taken over *)
Lemma get_category_summary_content
    (self : t) (start_date end_date : option string) (summary : Summary)
    (kind : string) :
  kind = "income" \/ kind = "expense" ->
  get_category_summary self start_date end_date = inr summary ->
  let listing := fst (get_transactions self start_date end_date None None) in
  NoDup (map fst (summary_of summary kind))
  /\ (forall c v,
        In (c, v) (summary_of summary kind)
        <-> of_category kind c listing <> []
            /\ v = Num.sum (map Transaction.amount
                             (of_category kind c listing))).
Proof.
  intros Hk Hs listing. unfold get_category_summary in Hs. fold listing in Hs.
  assert (Hempty : summary_of {| s_income := []; s_expense := [] |} kind = [])
    by (destruct Hk as [-> | ->]; reflexivity).
  assert (Hnd : NoDup (map fst (summary_of summary kind))).
  { apply (summary_loop_NoDup kind Hk _ _ _ Hs). rewrite Hempty. constructor. }
  split; [exact Hnd|]. intros c v. rewrite (lookup_In _ _ _ Hnd).
  rewrite (summary_loop_lookup kind Hk _ _ _ c Hs), Hempty.
  unfold lookup at 1 2. cbn [find option_map]. unfold Num.sum.
  destruct (of_category kind c listing) as [|x l'].
  - split; [discriminate|]. intros [H _]. now contradiction H.
  - split.
    + intros [= <-]. split; [discriminate|reflexivity].
    + intros [_ ->]. reflexivity.
Qed.

(** X8: when the category summary is defined, each of its two mappings
    has distinct categories as keys, holds a category exactly when an
    entry of that kind and category is in range, and holds for it the
    amounts of those entries added one by one, from zero, in the order of
    the listing. *)
Theorem get_category_summary_amounts
    (self : t) (start_date end_date : option string) (summary : Summary)
    (kind : string) :
  kind = "income" \/ kind = "expense" ->
  get_category_summary self start_date end_date = inr summary ->
  let listing := fst (get_transactions self start_date end_date None None) in
  NoDup (map fst (summary_of summary kind))
  /\ (forall c,
        In c (map fst (summary_of summary kind))
        <-> exists x, In x (in_range start_date end_date (transactions self))
                      /\ Transaction.transaction_type x = kind
                      /\ Transaction.category x = c)
  /\ (forall c v,
        In (c, v) (summary_of summary kind)
        <-> of_category kind c listing <> []
            /\ v = Num.sum (map Transaction.amount
                             (of_category kind c listing))).
Proof.
  intros Hk Hs listing.
  destruct (get_category_summary_content self start_date end_date summary
              kind Hk Hs) as [Hnd Hcontent].
  split; [exact Hnd|]. split; [|exact Hcontent].
  intros c. unfold get_category_summary in Hs.
  pose proof (listing_in_range self start_date end_date) as Hperm.
  rewrite (summary_loop_keys kind Hk _ _ _ c Hs).
  assert (Hempty : summary_of {| s_income := []; s_expense := [] |} kind = [])
    by (destruct Hk as [-> | ->]; reflexivity).
  rewrite Hempty. split.
  - intros [[]|(x & Hx & Hty & Hc)]. exists x.
    split; [|now split]. eapply Permutation_in; eassumption.
  - intros (x & Hx & Hty & Hc). right. exists x.
    split; [|now split]. eapply Permutation_in; [symmetry|]; eassumption.
Qed.

Lemma get_category_summary_amounts_witness :
  exists summary,
    get_category_summary Sample.ledger None None = inr summary
    /\ In ("Bills", PyFloat 200) (summary_of summary "expense").
Proof.
  eexists. split; [vm_compute; reflexivity|].
  destruct (get_category_summary_amounts Sample.ledger None None _
              "expense" (or_intror eq_refl) eq_refl) as (_ & _ & Hcontent).
  apply Hcontent. split; [discriminate|reflexivity].
Defined.

(** ** The report, line by line *)

Lemma sorted_items_nil (d : amounts) : sorted_items d = [] -> d = [].
Proof.
  intros H. apply Permutation_nil. rewrite <- H.
  symmetry. apply sorted_reverse_perm.
Qed.

(** a block is a title and a line for each of its rows, or nothing *)
Lemma block_lines (fixed2 : number -> string) (title : string) (d : amounts)
    (closing : string) :
  block fixed2 title d (sorted_items d) closing
  = match sorted_items d with
    | [] => ""
    | _ :: _ =>
        title ++ Str.nl
        ++ String.concat ""
             (map (fun item : string * number =>
                     "  " ++ Str.ljust 20 (fst item) ++ " $"
                     ++ Str.rjust 8 (fixed2 (snd item)) ++ Str.nl)
                (sorted_items d))
        ++ closing
    end.
Proof.
  destruct d as [|p d]; [reflexivity|].
  destruct (sorted_items (p :: d)) as [|q rows] eqn:Hrows; [|reflexivity].
  apply sorted_items_nil in Hrows. discriminate Hrows.
Qed.

(** the rows of a block: the summary of the kind, largest amount first *)
Lemma sorted_items_rows
    (self : t) (start_date end_date : option string) (summary : Summary)
    (kind : string) :
  kind = "income" \/ kind = "expense" ->
  get_category_summary self start_date end_date = inr summary ->
  let listing := fst (get_transactions self start_date end_date None None) in
  let rows := sorted_items (summary_of summary kind) in
  descending Num.le snd rows
  /\ NoDup (map fst rows)
  /\ (forall c v,
        In (c, v) rows
        <-> of_category kind c listing <> []
            /\ v = Num.sum (map Transaction.amount
                             (of_category kind c listing))).
Proof.
  intros Hk Hs listing rows.
  destruct (get_category_summary_content self start_date end_date summary
              kind Hk Hs) as [Hnd Hcontent].
  split; [apply sorted_reverse_descending, num_le_total|]. split.
  - eapply Permutation_NoDup; [|exact Hnd].
    apply Permutation_map, sorted_reverse_perm.
  - intros c v. unfold rows, sorted_items. rewrite sorted_reverse_In.
    apply Hcontent.
Qed.

(** C7: when every entry in the period is an income or an expense, the
    report is the heading, then the income block, then the expense block.
    A block has a line for each category that has an entry of its kind in
    the period, once, with the amounts of those entries summed in the
    order of the listing; the lines come in descending order of that sum;
    each line is the category in a field of 20, a dollar sign and the sum
    with two decimals in a field of 8.  A block without a category is
    omitted, title included.  Otherwise the report ends in the KeyError
    of a foreign kind.  With Food=50 and Bills=200 the line of Bills comes
    before the line of Food. *)
Theorem generate_report_blocks_sorted
    (strftime_ymd : Z -> string) (fixed2 : number -> string)
    (now : datetime) (self : t) (period : string) :
  let start_date := period_start strftime_ymd now period in
  let listing := fst (get_transactions self start_date None None None) in
  let line := fun item : string * number =>
    "  " ++ Str.ljust 20 (fst item) ++ " $"
    ++ Str.rjust 8 (fixed2 (snd item)) ++ Str.nl in
  let block_text :=
    fun (title : string) (rows : list (string * number)) (closing : string) =>
      match rows with
      | [] => ""
      | _ :: _ =>
          title ++ Str.nl ++ String.concat "" (map line rows) ++ closing
      end in
  let lists := fun (kind : string) (rows : list (string * number)) =>
    descending Num.le snd rows
    /\ NoDup (map fst rows)
    /\ (forall c v,
          In (c, v) rows
          <-> of_category kind c listing <> []
              /\ v = Num.sum (map Transaction.amount
                               (of_category kind c listing))) in
  ((forall x, In x listing ->
      Transaction.transaction_type x = "income"
      \/ Transaction.transaction_type x = "expense") ->
   exists rows_income rows_expense,
     generate_report strftime_ymd fixed2 now self period
     = inr ((heading fixed2 period (get_balance self start_date None)
             ++ block_text "INCOME BY CATEGORY:" rows_income Str.nl)
            ++ block_text "EXPENSES BY CATEGORY:" rows_expense "")
     /\ lists "income" rows_income
     /\ lists "expense" rows_expense)
  /\ (forall e,
        generate_report strftime_ymd fixed2 now self period = inl e ->
        exists x, In x listing
                  /\ e = KeyError (Transaction.transaction_type x)
                  /\ Transaction.transaction_type x <> "income"
                  /\ Transaction.transaction_type x <> "expense")
  /\ generate_report Sample.strftime_ymd Format.fixed2 Sample.now
       (Sample.store [Sample.food; Sample.bills]) "all"
     = inr (String.concat Str.nl
              [ "";
                "==================================================";
                "FINANCIAL REPORT - ALL";
                "==================================================";
                "";
                "SUMMARY:";
                "Total Income:    $      0.00";
                "Total Expenses:  $    250.00";
                "Net Balance:     $   -250.00";
                "";
                "EXPENSES BY CATEGORY:";
                "  Bills                $  200.00";
                "  Food                 $   50.00";
                "" ]).
Proof.
  intros start_date listing line block_text lists.
  split; [|split; [|reflexivity]].
  - intros Hkinds.
    destruct (summary_loop_defined listing
                {| s_income := []; s_expense := [] |} Hkinds)
      as [summary Hs].
    change (get_category_summary self start_date None = inr summary) in Hs.
    exists (sorted_items (summary_of summary "income")),
           (sorted_items (summary_of summary "expense")).
    split; [|split].
    + unfold generate_report. fold start_date. rewrite Hs. cbn [Ex.bind].
      change (s_income summary) with (summary_of summary "income").
      change (s_expense summary) with (summary_of summary "expense").
      rewrite !block_lines. reflexivity.
    + apply (sorted_items_rows self start_date None summary "income");
        [now left|exact Hs].
    + apply (sorted_items_rows self start_date None summary "expense");
        [now right|exact Hs].
  - intros e. unfold generate_report. fold start_date.
    destruct (get_category_summary self start_date None) as [e'|summary]
      eqn:Hs; cbn [Ex.bind]; [|discriminate].
    intros [= <-]. now apply summary_loop_exn in Hs.
Qed.

Lemma generate_report_blocks_sorted_witness :
  exists rows_expense,
    descending Num.le snd rows_expense
    /\ In ("Bills", PyFloat 200) rows_expense
    /\ In ("Food", PyFloat 50) rows_expense.
Proof.
  destruct (generate_report_blocks_sorted Sample.strftime_ymd Sample.fixed2
              Sample.now Sample.ledger "all") as (Hreport & _).
  destruct Hreport
    as (rows_income & rows_expense & _ & _ & Hdesc & _ & Hcontent).
  - intros x Hx. vm_compute in Hx.
    destruct Hx as [<-|[<-|[<-|[]]]]; simpl; auto.
  - exists rows_expense. split; [exact Hdesc|].
    split; apply Hcontent; (split; [discriminate|reflexivity]).
Defined.

(** ** More on the data file *)

Lemma from_dict_to_dict_any (strftime_ymd : Z -> string) (now : datetime)
    (x : Transaction.t) :
  Transaction.from_dict strftime_ymd now (Transaction.to_dict x)
  = inr (Some (reread strftime_ymd now x)).
Proof.
  destruct x as [i a c d ty dt]. unfold Transaction.from_dict. simpl.
  destruct a as [z|q]; reflexivity.
Qed.

Lemma mapM_from_dict_to_dict_any (strftime_ymd : Z -> string)
    (now : datetime) (l : list Transaction.t) :
  Ex.mapM (Transaction.from_dict strftime_ymd now)
    (map Transaction.to_dict l)
  = inr (map (fun x => Some (reread strftime_ymd now x)) l).
Proof.
  induction l as [|x l IH]; simpl; [reflexivity|].
  now rewrite from_dict_to_dict_any, IH.
Qed.

(** X10: a file written by save is always read back: for every store,
    constructing a store from the file it saved raises nothing and reports
    nothing, and gives as many entries, in the same order, each with the
    id, category and description it had, the absolute value of its
    amount, the lowercase form of its type, and its date when that was not
    empty. *)
Theorem save_then_load_never_fails
    (strftime_ymd : Z -> string) (list_set : list string -> list string)
    (now : datetime) (self : t) :
  exists fresh,
    __init__ strftime_ymd list_set now (data_file self) (save_data self)
    = Returns (fresh, [])
    /\ Forall2
         (fun x y =>
            Transaction.id y = Transaction.id x
            /\ Transaction.category y = Transaction.category x
            /\ Transaction.description y = Transaction.description x
            /\ Transaction.amount y = Num.abs (Transaction.amount x)
            /\ Transaction.transaction_type y
               = Str.lower (Transaction.transaction_type x)
            /\ (Transaction.date x <> "" ->
                Transaction.date y = Transaction.date x))
         (transactions self) (transactions fresh).
Proof.
  eexists. split.
  - unfold __init__, load_data, save_data, load_try.
    simpl Dyn.get. unfold Dyn.iter, Dyn.items, Ex.ret.
    rewrite mapM_from_dict_to_dict_any.
    rewrite <- (map_map (reread strftime_ymd now) Some), all_some_map_Some.
    simpl. rewrite !hashable_map_JStr, !all_str_map_JStr. reflexivity.
  - simpl transactions. induction (transactions self) as [|x l IH];
      simpl; constructor; [|exact IH].
    destruct x as [i a c d ty dt]. simpl. repeat split.
    intros Hd. destruct dt; [contradiction|reflexivity].
Qed.

(** X11: when reading a record raises a KeyError, the key it names is one
    of the six keys of a record, and the record is a dict that lacks it. *)
Theorem from_dict_key_error
    (strftime_ymd : Z -> string) (now : datetime) (data : json) (k : string) :
  Transaction.from_dict strftime_ymd now data = inl (KeyError k) ->
  In k record_keys
  /\ exists kvs, data = JObj kvs /\ ~ In k (map fst kvs).
Proof.
  intros H.
  assert (Hget : forall k', Dyn.getitem data k' = inl (KeyError k) ->
                 k' = k /\ exists kvs, data = JObj kvs /\ ~ In k (map fst kvs)).
  { intros k'. unfold Dyn.getitem, Ex.ret, Ex.raise.
    destruct data; try discriminate.
    destruct (find _ kvs) eqn:Hf; [discriminate|].
    intros [= ->]. split; [reflexivity|]. exists kvs. split; [reflexivity|].
    intros Hin. apply in_map_iff in Hin as ([k0 v] & Hk0 & Hin).
    simpl in Hk0. subst k0.
    apply (find_none _ _ Hf) in Hin. simpl in Hin.
    now rewrite String.eqb_refl in Hin. }
  unfold Transaction.from_dict in H.
  repeat match type of H with
         | Ex.bind ?m _ = _ =>
             let E := fresh "E" in
             destruct m eqn:E; simpl in H;
             [injection H as ->;
              first [ apply Hget in E; destruct E as [<- E];
                      split; [simpl; tauto|exact E]
                    | apply abs_arg_exn in E; discriminate E
                    | apply lower_arg_exn in E; discriminate E ]|]
         end.
  discriminate H.
Qed.

Lemma from_dict_key_error_witness :
  In "category" record_keys
  /\ exists kvs,
       JObj [("id", JInt 7); ("amount", JFloat 12.5)] = JObj kvs
       /\ ~ In "category" (map fst kvs).
Proof.
  apply (from_dict_key_error Sample.strftime_ymd Sample.now).
  reflexivity.
Defined.

Lemma mapM_ext_in {A B : Type} (f g : A -> ex B) (l : list A) :
  (forall x, In x l -> f x = g x) -> Ex.mapM f l = Ex.mapM g l.
Proof.
  induction l as [|x l IH]; intros H; simpl; [reflexivity|].
  rewrite (H x (or_introl eq_refl)), IH; [reflexivity|].
  intros y Hy. apply H. now right.
Qed.

(** a record with a non-empty date is read without the clock *)
Lemma from_dict_dated (strftime_ymd strftime_ymd' : Z -> string)
    (now now' : datetime) (data : json) (d : string) :
  Dyn.getitem data "date" = inr (JStr d) -> d <> "" ->
  Transaction.from_dict strftime_ymd now data
  = Transaction.from_dict strftime_ymd' now' data.
Proof.
  intros Hdate Hd. apply truthy_nonempty in Hd.
  unfold Transaction.from_dict. rewrite Hdate.
  destruct (Dyn.getitem data "amount"); simpl; [reflexivity|].
  destruct (Dyn.getitem data "category"); simpl; [reflexivity|].
  destruct (Dyn.getitem data "description"); simpl; [reflexivity|].
  destruct (Dyn.getitem data "type"); simpl; [reflexivity|].
  destruct (Dyn.abs_arg _); simpl; [reflexivity|].
  destruct (Dyn.lower_arg _); simpl; [reflexivity|].
  destruct (Dyn.getitem data "id"); simpl; [reflexivity|].
  unfold Ex.ret. do 2 f_equal.
  destruct (Dyn.as_str _); [|reflexivity].
  destruct (Dyn.as_str _); [|reflexivity].
  destruct (Dyn.as_int _); [|reflexivity].
  unfold Transaction.__init__, Transaction.set_id,
    Transaction.date_or_today. simpl. now rewrite Hd.
Qed.

(** X12: reading a data file whose records all carry a non-empty date
    does not depend on the clock, nor on how a day is printed: the store,
    the messages and the exceptions are the same at any time. *)
Theorem load_data_clock_independent
    (strftime_ymd strftime_ymd' : Z -> string)
    (list_set : list string -> list string) (now now' : datetime)
    (self : t) (data : json) (items : list json) :
  Dyn.get data "transactions" (JArr []) = inr (JArr items) ->
  Forall (fun item => exists d, Dyn.getitem item "date" = inr (JStr d)
                                /\ d <> "") items ->
  load_data strftime_ymd list_set now self (Content data)
  = load_data strftime_ymd' list_set now' self (Content data).
Proof.
  intros Hget Hitems. unfold load_data, load_try. rewrite Hget.
  unfold Dyn.iter, Ex.ret.
  rewrite (mapM_ext_in (Transaction.from_dict strftime_ymd now)
             (Transaction.from_dict strftime_ymd' now') items);
    [reflexivity|].
  intros item Hin. rewrite Forall_forall in Hitems.
  destruct (Hitems item Hin) as (d & Hdate & Hd).
  exact (from_dict_dated _ _ _ _ _ _ Hdate Hd).
Qed.

Lemma load_data_clock_independent_witness :
  load_data Sample.strftime_ymd Sample.list_set Sample.now
    (Sample.store []) (save_data Sample.ledger)
  = load_data (fun _ => "1999-12-31") Sample.list_set
      {| day := 0; timestamp := 0 |} (Sample.store [])
      (save_data Sample.ledger).
Proof.
  apply (load_data_clock_independent _ _ _ _ _ _ _
           (map Transaction.to_dict (transactions Sample.ledger))).
  - reflexivity.
  - simpl. repeat constructor; eexists; (split; [reflexivity|discriminate]).
Defined.

(** X13: the categories a data file lists under a key other than
    'income' and 'expense' are ignored, whatever their shape: when the
    categories of the file have only such keys, a load that returns leaves
    both vocabularies as they were. *)
Theorem load_data_ignores_other_kinds
    (strftime_ymd : Z -> string) (list_set : list string -> list string)
    (now : datetime) (self s' : t) (data : json)
    (kvs : list (string * json)) (out : list string) :
  Dyn.get data "categories" (JObj []) = inr (JObj kvs) ->
  Forall (fun kv => fst kv <> "income" /\ fst kv <> "expense") kvs ->
  load_data strftime_ymd list_set now self (Content data)
  = Returns (s', out) ->
  categories s' = categories self.
Proof.
  intros Hget Hkvs.
  assert (Hloop : forall st, merge_loop list_set st kvs = (None, st)).
  { clear Hget.
    induction Hkvs as [|[k v] kvs [Hi He] _ IH]; intros st;
      cbn [merge_loop]; [reflexivity|].
    assert (Hk : has_key k = false).
    { unfold has_key. apply String.eqb_neq in Hi, He. cbn [fst] in Hi, He.
      now rewrite Hi, He. }
    unfold merge_step. rewrite Hk. unfold Ex.ret. apply IH. }
  unfold load_data, load_try. rewrite Hget. unfold Dyn.items, Ex.ret.
  destruct (Dyn.get data "transactions" (JArr [])) as [e|v].
  { destruct (caught e); [|discriminate]. now intros [= <- _]. }
  destruct (Dyn.iter v) as [e|items].
  { destruct (caught e); [|discriminate]. now intros [= <- _]. }
  destruct (Ex.mapM _ items) as [e|ts].
  { destruct (caught e); [|discriminate]. now intros [= <- _]. }
  rewrite Hloop. destruct (all_some ts); simpl; [|discriminate].
  now intros [= <- _].
Qed.

Lemma load_data_ignores_other_kinds_witness :
  exists s' out,
    load_data Sample.strftime_ymd Sample.list_set Sample.now
      (Sample.store [])
      (Content (JObj [("categories", JObj [("savings", JInt 3)])]))
    = Returns (s', out)
    /\ categories s' = default_categories.
Proof.
  eexists _, _. split; [vm_compute; reflexivity|].
  apply (load_data_ignores_other_kinds Sample.strftime_ymd Sample.list_set
           Sample.now (Sample.store []) _
           (JObj [("categories", JObj [("savings", JInt 3)])])
           [("savings", JInt 3)] []).
  - reflexivity.
  - repeat constructor; simpl; discriminate.
  - reflexivity.
Defined.

(** ** How the mutations compose *)

Lemma filter_idem {A : Type} (p : A -> bool) (l : list A) :
  filter p (filter p l) = filter p l.
Proof.
  apply forallb_filter_id, forallb_forall. intros x Hx.
  now apply filter_In in Hx.
Qed.

(** X14: deleting an id a second time finds nothing: after a delete, a
    delete of the same id returns false and leaves the store and the data
    file as the first one left them. *)
Theorem delete_transaction_twice
    (self : t) (file : file_state) (transaction_id : Z) :
  let '(_, self1, file1) := delete_transaction self file transaction_id in
  delete_transaction self1 file1 transaction_id = (false, self1, file1).
Proof.
  unfold delete_transaction at 1.
  set (self1 := set_transactions self _).
  assert (Hagain : forall f, delete_transaction self1 f transaction_id
                             = (false, self1, f)).
  { intros f. unfold delete_transaction, self1. simpl transactions.
    rewrite filter_idem, Nat.ltb_irrefl. reflexivity. }
  destruct (_ <? _)%nat; apply Hagain.
Qed.

(** X15: deleting the entry just added, by its id, returns true and
    removes with it every older entry of that id; when the id was carried
    by no entry before, the collection is the one before the add. *)
Theorem add_then_delete
    (strftime_ymd : Z -> string) (now : datetime) (self : t)
    (file : file_state) (amount : number)
    (category description transaction_type : string) (date : option string) :
  Str.lower transaction_type = "income"
  \/ Str.lower transaction_type = "expense" ->
  let '(_, self1, file1) :=
    add_transaction strftime_ymd now self file amount category description
      transaction_type date in
  let '(removed, self2, file2) :=
    delete_transaction self1 file1 (Transaction._generate_id now) in
  removed = true
  /\ transactions self2
     = filter (fun x => negb (Transaction.id x =? Transaction._generate_id now))
         (transactions self)
  /\ ((forall x, In x (transactions self) ->
         Transaction.id x <> Transaction._generate_id now) ->
      transactions self2 = transactions self)
  /\ categories self2 = categories self1
  /\ file2 = save_data self2.
Proof.
  intros Hk.
  rewrite (add_transaction_valid strftime_ymd now self file amount category
             description transaction_type date Hk).
  unfold delete_transaction. simpl transactions.
  rewrite filter_app. cbn [filter Transaction.id Transaction.__init__].
  rewrite Z.eqb_refl. cbn [negb]. rewrite app_nil_r.
  set (rest := filter _ (transactions self)).
  match goal with
  | |- context [(length rest <? ?n)%nat] =>
      assert (Hlen : (length rest <? n)%nat = true)
  end.
  { apply Nat.ltb_lt. rewrite length_app. simpl.
    pose proof (filter_split_length
                  (fun x => Transaction.id x =? Transaction._generate_id now)
                  (transactions self)) as Hsplit.
    cbv beta in Hsplit. fold rest in Hsplit. lia. }
  rewrite Hlen. repeat split.
  intros Hfresh. unfold rest. apply forallb_filter_id, forallb_forall.
  intros x Hx. apply negb_true_iff, Z.eqb_neq. now apply Hfresh.
Qed.

Lemma add_then_delete_witness :
  transactions
    (snd (fst (delete_transaction
                 (snd (fst (add_transaction Sample.strftime_ymd Sample.now
                              Sample.ledger Absent (PyFloat 30) "Pets" "Vet"
                              "expense" None)))
                 Absent (Transaction._generate_id Sample.now))))
  = transactions Sample.ledger.
Proof.
  pose proof (add_then_delete Sample.strftime_ymd Sample.now Sample.ledger
                Absent (PyFloat 30) "Pets" "Vet" "expense" None
                (or_intror eq_refl)) as H.
  vm_compute in H. destruct H as (_ & H & _). vm_compute. exact H.
Defined.

(** X16: add never puts a category twice in a vocabulary: vocabularies
    without duplicates stay so, and a category already there, in the same
    letter case, leaves them unchanged. *)
Theorem add_transaction_keeps_vocabularies_distinct
    (strftime_ymd : Z -> string) (now : datetime) (self : t)
    (file : file_state) (amount : number)
    (category description transaction_type : string) (date : option string) :
  (forall k, NoDup (vocabulary (categories self) k)) ->
  let self' :=
    snd (fst (add_transaction strftime_ymd now self file amount category
                description transaction_type date)) in
  forall k, NoDup (vocabulary (categories self') k).
Proof.
  intros Hnd self' k. unfold self'.
  destruct (Str.mem (Str.lower transaction_type) ["income"; "expense"]) eqn:Hm.
  - apply kind_mem in Hm.
    rewrite (add_transaction_valid strftime_ymd now self file amount
               category description transaction_type date Hm).
    simpl snd. simpl fst. simpl categories.
    rewrite (grown_vocabulary self category transaction_type k Hm).
    destruct (String.eqb k (Str.lower transaction_type)); simpl; [|apply Hnd].
    destruct (Str.mem category _) eqn:Hc; simpl; [apply Hnd|].
    apply mem_false in Hc. apply NoDup_app; [apply Hnd| |].
    + repeat constructor. auto.
    + intros x Hx [<-|[]]. contradiction.
  - unfold add_transaction. rewrite Hm. simpl. apply Hnd.
Qed.

Lemma add_transaction_keeps_vocabularies_distinct_witness :
  NoDup
    (vocabulary
       (categories
          (snd (fst (add_transaction Sample.strftime_ymd Sample.now
                       Sample.ledger Absent (PyFloat 30) "Food" "Lunch"
                       "expense" None))))
       "expense").
Proof.
  apply (add_transaction_keeps_vocabularies_distinct Sample.strftime_ymd
           Sample.now Sample.ledger Absent (PyFloat 30) "Food" "Lunch"
           "expense" None).
  intros k. unfold vocabulary, getitem.
  destruct (String.eqb k "income"); [|destruct (String.eqb k "expense")];
    simpl; repeat constructor; simpl; intuition discriminate.
Defined.

(** X17: an entry just added is found by a listing that asks for its own
    category and kind, in any letter case. *)
Theorem add_then_list_by_category
    (strftime_ymd : Z -> string) (now : datetime) (self : t)
    (file : file_state) (amount : number)
    (category description transaction_type : string) (date : option string)
    (category' kind' : string) :
  Str.lower transaction_type = "income"
  \/ Str.lower transaction_type = "expense" ->
  Str.lower category' = Str.lower category ->
  Str.lower kind' = Str.lower transaction_type ->
  exists x self' file',
    add_transaction strftime_ymd now self file amount category description
      transaction_type date = (inr x, self', file')
    /\ In x (fst (get_transactions self' None None (Some category')
                    (Some kind'))).
Proof.
  intros Hk Hc Hty.
  rewrite (add_transaction_valid strftime_ymd now self file amount category
             description transaction_type date Hk).
  eexists _, _, _. split; [reflexivity|].
  rewrite get_transactions_filter. simpl fst.
  apply sorted_reverse_In, filter_In. split.
  - simpl. apply in_or_app. right. now left.
  - unfold Spec.keeps_nonempty, Spec.when_nonempty. simpl.
    rewrite Hc, Hty, !String.eqb_refl.
    destruct (Str.truthy category'), (Str.truthy kind'); reflexivity.
Qed.

Lemma add_then_list_by_category_witness :
  exists x self' file',
    add_transaction Sample.strftime_ymd Sample.now Sample.ledger Absent
      (PyFloat 30) "Pets" "Vet" "Expense" None = (inr x, self', file')
    /\ In x (fst (get_transactions self' None None (Some "PETS")
                    (Some "EXPENSE"))).
Proof.
  apply add_then_list_by_category; [right| |]; reflexivity.
Defined.

(** X18: the entries of a store keep the shape the constructor gives
    them: a store constructed from any data file has only entries with a
    non-negative amount, a type in lower case and a non-empty date (a day
    being printed as a non-empty string), and add and delete keep a store
    so. *)
Theorem store_entries_well_formed
    (strftime_ymd : Z -> string) (list_set : list string -> list string)
    (now : datetime) :
  (forall d, strftime_ymd d <> "") ->
  (forall l x, In x l -> In x (list_set l)) ->
  let well_formed (s : t) :=
    forall x, In x (transactions s) ->
      (0 <= Num.val (Transaction.amount x))%Q
      /\ Str.lower (Transaction.transaction_type x)
         = Transaction.transaction_type x
      /\ Transaction.date x <> "" in
  (forall data_file file s out,
     __init__ strftime_ymd list_set now data_file file = Returns (s, out) ->
     store_ok s /\ well_formed s)
  /\ (forall self file amount category description transaction_type date
             r self' file',
        store_ok self ->
        add_transaction strftime_ymd now self file amount category
          description transaction_type date = (r, self', file') ->
        store_ok self' /\ well_formed self')
  /\ (forall self file transaction_id r self' file',
        store_ok self ->
        delete_transaction self file transaction_id = (r, self', file') ->
        store_ok self' /\ well_formed self').
Proof.
  intros Hday Hset well_formed.
  assert (Hwf : forall s, store_ok s -> well_formed s).
  { intros s Hok x Hx. unfold store_ok in Hok. rewrite Forall_forall in Hok.
    destruct (Hok x Hx) as (Ha & Hty & Hd).
    split; [|now split]. rewrite <- Ha. apply val_abs_nonneg. }
  split; [|split].
  - intros data_file file s out Hinit. unfold __init__ in Hinit.
    apply (load_data_store_ok _ _ _ Hday Hset) in Hinit.
    + split; [exact Hinit|now apply Hwf].
    + constructor.
  - intros self file amount category description transaction_type date
           r self' file' Hok Hadd.
    apply (add_transaction_store_ok _ _ Hday) in Hadd; [|exact Hok].
    split; [exact Hadd|now apply Hwf].
  - intros self file transaction_id r self' file' Hok Hdel.
    apply delete_transaction_store_ok in Hdel; [|exact Hok].
    split; [exact Hdel|now apply Hwf].
Qed.

Lemma store_entries_well_formed_witness :
  Forall (fun x => (0 <= Num.val (Transaction.amount x))%Q)
    (transactions
       (snd (fst (add_transaction Sample.strftime_ymd Sample.now
                    (Sample.store []) Absent (PyFloat (-30)) "Pets"
                    "Vet" "Expense" None)))).
Proof.
  destruct (store_entries_well_formed Sample.strftime_ymd Sample.list_set
              Sample.now) as (_ & Hadd & _).
  - intros d. unfold Sample.strftime_ymd. destruct (d =? 19783); discriminate.
  - intros l x. apply nodup_In.
  - set (res := add_transaction Sample.strftime_ymd Sample.now
                  (Sample.store []) Absent (PyFloat (-30)) "Pets" "Vet"
                  "Expense" None).
    apply Forall_forall. intros x Hx.
    apply (proj2 (Hadd (Sample.store []) Absent (PyFloat (-30)) "Pets" "Vet"
                    "Expense" None (fst (fst res)) (snd (fst res)) (snd res)
                    (Forall_nil _) eq_refl) x Hx).
Defined.

(** ** The command line *)

Lemma delete_transaction_returns (self : t) (file : file_state)
    (transaction_id : Z) :
  fst (fst (delete_transaction self file transaction_id))
  = existsb (fun x => Transaction.id x =? transaction_id) (transactions self).
Proof.
  unfold delete_transaction. simpl transactions.
  pose proof (filter_split_length
                (fun x => Transaction.id x =? transaction_id)
                (transactions self)) as Hlen.
  cbv beta in Hlen.
  destruct (_ <? _)%nat eqn:Hlt; simpl; symmetry.
  - apply Nat.ltb_lt in Hlt. apply existsb_exists.
    destruct (filter (fun x => Transaction.id x =? transaction_id)
                (transactions self)) as [|x l] eqn:Hf;
      [simpl in Hlen; lia|].
    exists x. apply (filter_In (fun x => Transaction.id x =? transaction_id)).
    rewrite Hf. now left.
  - apply Nat.ltb_ge in Hlt. apply not_true_is_false. intros Hex.
    apply existsb_exists in Hex as (x & Hx & Hid).
    assert (Hin : In x (filter (fun x => Transaction.id x =? transaction_id)
                          (transactions self)))
      by (apply filter_In; now split).
    destruct (filter (fun x => Transaction.id x =? transaction_id)
                (transactions self)); [destruct Hin|simpl in Hlen; lia].
Qed.

Section CommandLine.

Variable strftime_ymd : Z -> string.
Variable list_set : list string -> list string.
Variable fixed2 : number -> string.
Variable repr_str : string -> string.
Variable builtin_text : exn -> string.
Variable help : list string.
Variable now : datetime.

Let main := Cli.main strftime_ymd list_set fixed2 repr_str builtin_text help now.
Let init := __init__ strftime_ymd list_set now.

(** what [main] does once the store is constructed *)
Lemma main_constructed (a : Cli.args) (c : Cli.command) (disk : file_state)
    (tracker : t) (loaded : list string) :
  Cli.command_ a = Some c ->
  init (Cli.file a) disk = Returns (tracker, loaded) ->
  main a disk
  = Returns
      ((loaded
        ++ fst (Cli.run strftime_ymd fixed2 repr_str builtin_text now c
                  tracker disk))%list,
       snd (Cli.run strftime_ymd fixed2 repr_str builtin_text now c
              tracker disk)).
Proof.
  intros Hc Hinit. unfold main, Cli.main. unfold init in Hinit.
  rewrite Hc, Hinit. now destruct (Cli.run _ _ _ _ _ _ _ _).
Qed.

End CommandLine.

Section CommandLineProperties.

Variable strftime_ymd : Z -> string.
Variable list_set : list string -> list string.
Variable fixed2 : number -> string.
Variable repr_str : string -> string.
Variable builtin_text : exn -> string.
Variable help : list string.
Variable now : datetime.

(** X19: the program ends in an exception exactly when a command is given
    and the construction of the store raises: whatever a command raises
    is printed as an error line, and what the load lets through is not
    caught. *)
Theorem main_raises_iff_construction_raises
    (a : Cli.args) (disk : file_state) (e : exn) :
  Cli.main strftime_ymd list_set fixed2 repr_str builtin_text help now a disk
  = Raises e
  <-> Cli.command_ a <> None
      /\ __init__ strftime_ymd list_set now (Cli.file a) disk = Raises e.
Proof.
  unfold Cli.main. destruct (Cli.command_ a) as [c|].
  - destruct (__init__ strftime_ymd list_set now (Cli.file a) disk)
      as [[tracker loaded]|e'|].
    + destruct (Cli.run _ _ _ _ _ _ _ _). split; [discriminate|].
      intros [_ H]. discriminate H.
    + split; [intros [= ->]; now split|]. now intros [_ [= ->]].
    + split; [discriminate|]. intros [_ H]. discriminate H.
  - split; [discriminate|]. intros [H _]. now contradiction H.
Qed.

(** X20: the add command, whose type the parser restricts to income and
    expense, never prints an error line: once the store is constructed it
    prints the line of the entry added, and the data file afterwards is
    the store saved with that entry at the end. *)
Theorem main_add_succeeds
    (a : Cli.args) (disk : file_state) (tracker : t) (loaded : list string)
    (amount : Q) (type category description : string) (date : option string) :
  type = "income" \/ type = "expense" ->
  Cli.command_ a = Some (Cli.Add amount type category description date) ->
  __init__ strftime_ymd list_set now (Cli.file a) disk
  = Returns (tracker, loaded) ->
  exists x tracker',
    add_transaction strftime_ymd now tracker disk (PyFloat amount) category
      description type date
    = (inr x, tracker', save_data tracker')
    /\ transactions tracker' = (transactions tracker ++ [x])%list
    /\ Cli.main strftime_ymd list_set fixed2 repr_str builtin_text help now
         a disk
       = Returns
           ((loaded ++ [Cli.added_line fixed2 type amount description x])%list,
            save_data tracker').
Proof.
  intros Hty Hc Hinit.
  assert (Hk : Str.lower type = "income" \/ Str.lower type = "expense")
    by (destruct Hty as [-> | ->]; [left|right]; reflexivity).
  pose proof (add_transaction_valid strftime_ymd now tracker disk
                (PyFloat amount) category description type date Hk) as Hadd.
  cbv zeta in Hadd.
  eexists _, _. split; [exact Hadd|]. split; [reflexivity|].
  rewrite (main_constructed _ _ _ _ _ _ _ _ _ _ _ _ Hc Hinit).
  unfold Cli.run. rewrite Hadd. reflexivity.
Qed.

(** X21: the list command prints, after the two heading lines, one row
    for each entry of a prefix of the listing: its first [limit] entries
    when the limit is not negative (all of them when there are fewer), and
    all but the last [-limit] when it is negative; without any entry it
    prints that none was found.  The data file is left as it was. *)
Theorem main_list_limit
    (a : Cli.args) (disk : file_state) (tracker : t) (loaded : list string)
    (start end_ category type : option string) (limit : Z) :
  Cli.command_ a = Some (Cli.List start end_ category type limit) ->
  __init__ strftime_ymd list_set now (Cli.file a) disk
  = Returns (tracker, loaded) ->
  let listing := fst (get_transactions tracker start end_ category type) in
  let shown := Cli.slice_to limit listing in
  Cli.main strftime_ymd list_set fixed2 repr_str builtin_text help now a disk
  = Returns
      ((loaded
        ++ match listing with
           | [] => ["No transactions found."]
           | _ :: _ =>
               Cli.list_header :: Str.times "-" 70
               :: map (Cli.list_row fixed2) shown
           end)%list,
       disk)
  /\ (exists rest, listing = (shown ++ rest)%list)
  /\ (0 <= limit -> length shown = Nat.min (Z.to_nat limit) (length listing))
  /\ (limit < 0 ->
      length shown = (length listing - Z.to_nat (- limit))%nat).
Proof.
  intros Hc Hinit listing shown.
  split; [|split; [|split]].
  - rewrite (main_constructed _ _ _ _ _ _ _ _ _ _ _ _ Hc Hinit).
    unfold Cli.run. fold listing. now destruct listing.
  - unfold shown, Cli.slice_to. destruct (0 <=? limit); eexists;
      symmetry; apply firstn_skipn.
  - intros Hl. unfold shown, Cli.slice_to.
    apply Z.leb_le in Hl. rewrite Hl. apply length_firstn.
  - intros Hl. unfold shown, Cli.slice_to.
    apply Z.leb_gt in Hl. rewrite Hl, length_firstn. lia.
Qed.

(** X22: the commands that only read leave the data file as they found
    it: after list, balance, report, categories, or no command at all, the
    file is the one before, also when loading it reported an error. *)
Theorem main_read_only
    (a : Cli.args) (disk disk' : file_state) (printed : list string) :
  match Cli.command_ a with
  | Some (Cli.Add _ _ _ _ _) | Some (Cli.Delete _) => False
  | _ => True
  end ->
  Cli.main strftime_ymd list_set fixed2 repr_str builtin_text help now a disk
  = Returns (printed, disk') ->
  disk' = disk.
Proof.
  unfold Cli.main. destruct (Cli.command_ a) as [c|];
    [|now intros _ [= _ <-]].
  destruct (__init__ strftime_ymd list_set now (Cli.file a) disk)
    as [[tracker loaded]|e'|]; try (intros _; discriminate).
  destruct c; try contradiction; intros _; unfold Cli.run.
  - destruct (fst (get_transactions _ _ _ _ _)); now intros [= _ <-].
  - now intros [= _ <-].
  - destruct (generate_report _ _ _ _ _); now intros [= _ <-].
  - now intros [= _ <-].
Qed.

(** X23: after a load that reported an error, the add command replaces
    the data file: the file afterwards holds the new entry alone, whatever
    the file held. *)
Theorem main_add_after_failed_load
    (a : Cli.args) (disk : file_state) (tracker : t) (loaded : list string)
    (amount : Q) (type category description : string) (date : option string) :
  type = "income" \/ type = "expense" ->
  Cli.command_ a = Some (Cli.Add amount type category description date) ->
  __init__ strftime_ymd list_set now (Cli.file a) disk
  = Returns (tracker, loaded) ->
  loaded <> [] ->
  exists x tracker' printed,
    Cli.main strftime_ymd list_set fixed2 repr_str builtin_text help now
      a disk
    = Returns (printed, save_data tracker')
    /\ transactions tracker' = [x]
    /\ Transaction.category x = category
    /\ Transaction.description x = description.
Proof.
  intros Hty Hc Hinit Hloaded.
  assert (Hk : Str.lower type = "income" \/ Str.lower type = "expense")
    by (destruct Hty as [-> | ->]; [left|right]; reflexivity).
  pose proof (add_transaction_valid strftime_ymd now tracker disk
                (PyFloat amount) category description type date Hk) as Hadd.
  cbv zeta in Hadd.
  rewrite (main_constructed _ _ _ _ _ _ _ _ _ _ _ _ Hc Hinit).
  unfold Cli.run. rewrite Hadd.
  unfold __init__ in Hinit.
  destruct (load_data_reported _ _ _ _ _ _ _ Hinit Hloaded) as [-> _].
  eexists _, _, _. split; [reflexivity|]. now split.
Qed.

(** X24: the delete command reports a deletion exactly when an entry of
    the store carries the id, and that the id was not found otherwise. *)
Theorem main_delete_reports
    (a : Cli.args) (disk : file_state) (tracker : t) (loaded : list string)
    (id : Z) :
  Cli.command_ a = Some (Cli.Delete id) ->
  __init__ strftime_ymd list_set now (Cli.file a) disk
  = Returns (tracker, loaded) ->
  let line :=
    "Transaction " ++ Cli.str_int id
    ++ (if existsb (fun x => Transaction.id x =? id) (transactions tracker)
        then " deleted successfully." else " not found.") in
  exists disk',
    Cli.main strftime_ymd list_set fixed2 repr_str builtin_text help now
      a disk
    = Returns ((loaded ++ [line])%list, disk')
    /\ (existsb (fun x => Transaction.id x =? id) (transactions tracker)
        = false -> disk' = disk).
Proof.
  intros Hc Hinit line. unfold line.
  rewrite (main_constructed _ _ _ _ _ _ _ _ _ _ _ _ Hc Hinit).
  unfold Cli.run.
  pose proof (delete_transaction_returns tracker disk id) as Hret.
  destruct (delete_transaction tracker disk id) as [[removed s'] disk']
    eqn:Hdel.
  simpl in Hret. rewrite <- Hret.
  exists disk'. split; [now destruct removed|].
  intros ->. unfold delete_transaction in Hdel.
  destruct (_ <? _)%nat; [discriminate|]. congruence.
Qed.

End CommandLineProperties.

Lemma main_add_succeeds_witness :
  exists x tracker',
    SampleCli.main
      (SampleCli.args (Cli.Add 12.5 "expense" "Food" "Lunch" None)) Absent
    = Returns ([Cli.added_line Sample.fixed2 "expense" 12.5 "Lunch" x],
               save_data tracker').
Proof.
  destruct (main_add_succeeds Sample.strftime_ymd Sample.list_set
              Sample.fixed2 SampleCli.repr_str SampleCli.builtin_text
              SampleCli.help Sample.now
              (SampleCli.args (Cli.Add 12.5 "expense" "Food" "Lunch" None))
              Absent (Sample.store []) [] 12.5 "expense" "Food" "Lunch" None
              (or_intror eq_refl) eq_refl eq_refl)
    as (x & tracker' & _ & _ & Hmain).
  exists x, tracker'. exact Hmain.
Defined.

Lemma main_list_limit_witness :
  exists tracker,
    __init__ Sample.strftime_ymd Sample.list_set Sample.now
      "finance_data.json" (save_data Sample.ledger)
    = Returns (tracker, [])
    /\ length (Cli.slice_to 2
                 (fst (get_transactions tracker None None None None)))
       = 2%nat.
Proof.
  eexists. split; [vm_compute; reflexivity|].
  destruct (main_list_limit Sample.strftime_ymd Sample.list_set
              Sample.fixed2 SampleCli.repr_str SampleCli.builtin_text
              SampleCli.help Sample.now
              (SampleCli.args (Cli.List None None None None 2))
              (save_data Sample.ledger) _ [] None None None None 2
              eq_refl eq_refl)
    as (_ & _ & Hlen & _).
  etransitivity; [apply Hlen; lia|reflexivity].
Defined.

Lemma main_read_only_witness :
  exists printed,
    SampleCli.main (SampleCli.args Cli.Categories) (Unparsable "bad")
    = Returns (printed, Unparsable "bad").
Proof.
  assert (H : exists printed disk',
            SampleCli.main (SampleCli.args Cli.Categories) (Unparsable "bad")
            = Returns (printed, disk'))
    by (eexists _, _; vm_compute; reflexivity).
  destruct H as (printed & disk' & H). exists printed.
  rewrite <- (main_read_only Sample.strftime_ymd Sample.list_set
                Sample.fixed2 SampleCli.repr_str SampleCli.builtin_text
                SampleCli.help Sample.now (SampleCli.args Cli.Categories)
                (Unparsable "bad") disk' printed I H) at 2.
  exact H.
Defined.

Lemma main_add_after_failed_load_witness :
  exists x tracker' printed,
    SampleCli.main
      (SampleCli.args (Cli.Add 12.5 "expense" "Food" "Lunch" None))
      (Unparsable "Expecting value")
    = Returns (printed, save_data tracker')
    /\ transactions tracker' = [x].
Proof.
  destruct (main_add_after_failed_load Sample.strftime_ymd Sample.list_set
              Sample.fixed2 SampleCli.repr_str SampleCli.builtin_text
              SampleCli.help Sample.now
              (SampleCli.args (Cli.Add 12.5 "expense" "Food" "Lunch" None))
              (Unparsable "Expecting value") (Sample.store [])
              [load_message (JSONDecodeError "Expecting value")]
              12.5 "expense" "Food" "Lunch" None
              (or_intror eq_refl) eq_refl eq_refl)
    as (x & tracker' & printed & Hmain & Htr & _).
  - discriminate.
  - exists x, tracker', printed. split; [exact Hmain|exact Htr].
Defined.

Lemma main_delete_reports_witness :
  exists disk',
    SampleCli.main (SampleCli.args (Cli.Delete 2)) (save_data Sample.ledger)
    = Returns (["Transaction 2 deleted successfully."], disk').
Proof.
  destruct (main_delete_reports Sample.strftime_ymd Sample.list_set
              Sample.fixed2 SampleCli.repr_str SampleCli.builtin_text
              SampleCli.help Sample.now
              (SampleCli.args (Cli.Delete 2)) (save_data Sample.ledger)
              _ [] 2 eq_refl eq_refl)
    as (disk' & Hmain & _).
  exists disk'. exact Hmain.
Defined.
